(** * ICD-11 diagnosis classifier: chapter table, classification and queries

    A shallow embedding of [app.py].  Python values and the string methods
    the program calls live in [Module Py]; the pandas operations the program
    applies to its data frame live in [Module Pd]; the program's own table,
    [find_category] and the handlers of its tabs follow, under their names.

    A frame is the list of its rows, in order.  Frames are objects behind
    references: boolean indexing and [copy] make new objects, a column
    assignment changes the object it is applied to.  [value_counts] counts
    in one pass and then sorts by descending count; pandas sorts with its
    default sort kind, which it documents as not stable, so the sort is a
    parameter of the model and nothing is derived from the order it gives
    to equal counts.

    The load block is modelled in two parts: on file names and column names
    ([load_files]: which reader a name selects, which columns the
    concatenated frame has, which column is taken; [load_run] adds the
    readers' own failures), and on the values of the column taken
    ([load_data]: conversion to text, normalisation and classification).

    Strings are the standard library's [string]: sequences of 8-bit
    characters, read as the UTF-8 bytes of the Python text.  Comparison and
    [startswith] on these bytes agree with Python's comparison by code
    point.  Case mapping and white space are Python's on the ASCII range;
    bytes above 127 are left unchanged by [upper] and are never white space.

    [Module Uni] has Python's own [strip] and [upper] on a string given by
    its code points: the white space of [str.isspace] and the full
    uppercase mapping of [str.upper] (Unicode 14.0, the data of CPython
    3.11), one code point at a time.  [find_category_text] is
    [find_category] on such a string: Python's normalisation, then the loop
    on the UTF-8 bytes.  On ASCII text it is [classify]
    ([find_category_text_ascii]).

    [Py.str] gives the text of a value; [Py.str_call] is the call [str(o)],
    which raises [ValueError] on an integer of more than 4300 digits
    (CPython's default limit), and [find_category_call] is the call of
    [find_category] with that outcome. *)

From Stdlib Require Import String Ascii List ZArith NArith Bool Lia.
From Stdlib Require Import DecimalString Permutation Sorted.
From Stdlib Require DecimalZ DecimalPos.
From stdpp Require Import base option gmap.
Import ListNotations.

Local Open Scope string_scope.

(** ** Python strings and values *)

Module Py.

(** The values [find_category] is applied to: strings, integers, booleans
    and [None].  Floating-point numbers are left out. *)
Inductive object : Type :=
| Str (s : string)
| Int (z : Z)
| Bool (b : bool)
| NoneObj.

(** The text of [str(o)]: a string is itself, an integer is written in
    decimal (with [-] when negative), [True], [False] and [None] are spelt
    out.  The interpreter's limit on the digits of an integer is in
    [str_call]. *)
Definition str (o : object) : string :=
  match o with
  | Str s => s
  | Int z => NilZero.string_of_int (Z.to_int z)
  | Bool true => "True"
  | Bool false => "False"
  | NoneObj => "None"
  end.

(** [ch.isspace()] on the ASCII range: TAB, LF, VT, FF, CR, the four
    separators FS, GS, RS, US and the space.  Python's white space beyond
    ASCII is in [Uni.isspace]. *)
Definition isspace (a : ascii) : bool :=
  let n := N_of_ascii a in
  ((9 <=? n) && (n <=? 13) || (28 <=? n) && (n <=? 32))%N.

(** [ch.upper()] on the ASCII range.  Python's mapping beyond ASCII is in
    [Uni.upper_cp]. *)
Definition upper_char (a : ascii) : ascii :=
  let n := N_of_ascii a in
  if ((97 <=? n) && (n <=? 122))%N then ascii_of_N (n - 32) else a.

(** [s.upper()] *)
Fixpoint upper (s : string) : string :=
  match s with
  | EmptyString => EmptyString
  | String a s' => String (upper_char a) (upper s')
  end.

(** [s.lstrip()] *)
Fixpoint lstrip (s : string) : string :=
  match s with
  | EmptyString => EmptyString
  | String a s' => if isspace a then lstrip s' else s
  end.

(** [s.rstrip()]: a character is dropped when it is white space and
    nothing survives to its right. *)
Fixpoint rstrip (s : string) : string :=
  match s with
  | EmptyString => EmptyString
  | String a s' =>
      match rstrip s' with
      | EmptyString => if isspace a then EmptyString else String a EmptyString
      | r => String a r
      end
  end.

(** [s.strip()] *)
Definition strip (s : string) : string := rstrip (lstrip s).

(** [s.startswith(p)] *)
Definition startswith (s p : string) : bool := String.prefix p s.

(** [s[:n]] *)
Definition slice_to (n : nat) (s : string) : string := substring 0 n s.

(** [a <= b] and [a < b] on strings. *)
Definition le (a b : string) : bool := String.leb a b.
Definition lt (a b : string) : bool := String.ltb a b.

(** [s.endswith(suffix)]: [suffix] is [s] or ends a tail of [s]. *)
Fixpoint endswith (s suffix : string) : bool :=
  if String.eqb s suffix then true
  else match s with
       | EmptyString => false
       | String _ s' => endswith s' suffix
       end.

(** Every character of [s] passes the test [p]. *)
Fixpoint all_chars (p : ascii -> bool) (s : string) : bool :=
  match s with
  | EmptyString => true
  | String a s' => p a && all_chars p s'
  end.

(** What a call does: it returns a value or raises. *)
Inductive exception : Type := ValueError.

Inductive result (A : Type) : Type :=
| Returns (a : A)
| Raises (e : exception).

Arguments Returns {A} a.
Arguments Raises {A} e.

(** [sys.get_int_max_str_digits()], which the program leaves at its
    default. *)
Definition max_str_digits : nat := 4300.

(** The number of decimal digits of an integer, its sign apart. *)
Definition int_digits (z : Z) : nat := String.length (str (Int (Z.abs z))).

(** The call [str(o)]: the text of [o], except that an integer of more
    than [max_str_digits] digits raises [ValueError]. *)
Definition str_call (o : object) : result string :=
  match o with
  | Int z =>
      if (max_str_digits <? int_digits z)%nat then Raises ValueError
      else Returns (str o)
  | _ => Returns (str o)
  end.

End Py.

(** ** Python strings by code point *)

Module Uni.

(** A Python string, as the sequence of its code points. *)
Definition text : Type := list N.

(** [ch.isspace()]: the code points [str.strip()] removes. *)
Definition isspace (cp : N) : bool :=
  ((9 <=? cp) && (cp <=? 13) || (28 <=? cp) && (cp <=? 32)
   || (cp =? 133) || (cp =? 160) || (cp =? 5760)
   || (8192 <=? cp) && (cp <=? 8202)
   || (cp =? 8232) || (cp =? 8233) || (cp =? 8239) || (cp =? 8287)
   || (cp =? 12288))%N.

(** The code points that [str.upper()] changes, each with what it becomes
    (one to three code points). *)
Definition upper_table : list (N * list N) :=
  [
    (97, [65]); (98, [66]); (99, [67]); (100, [68]); (101, [69]); (102, [70]); (103, [71]);
    (104, [72]); (105, [73]); (106, [74]); (107, [75]); (108, [76]); (109, [77]); (110, [78]);
    (111, [79]); (112, [80]); (113, [81]); (114, [82]); (115, [83]); (116, [84]); (117, [85]);
    (118, [86]); (119, [87]); (120, [88]); (121, [89]); (122, [90]); (181, [924]);
    (223, [83; 83]); (224, [192]); (225, [193]); (226, [194]); (227, [195]); (228, [196]);
    (229, [197]); (230, [198]); (231, [199]); (232, [200]); (233, [201]); (234, [202]);
    (235, [203]); (236, [204]); (237, [205]); (238, [206]); (239, [207]); (240, [208]);
    (241, [209]); (242, [210]); (243, [211]); (244, [212]); (245, [213]); (246, [214]);
    (248, [216]); (249, [217]); (250, [218]); (251, [219]); (252, [220]); (253, [221]);
    (254, [222]); (255, [376]); (257, [256]); (259, [258]); (261, [260]); (263, [262]);
    (265, [264]); (267, [266]); (269, [268]); (271, [270]); (273, [272]); (275, [274]);
    (277, [276]); (279, [278]); (281, [280]); (283, [282]); (285, [284]); (287, [286]);
    (289, [288]); (291, [290]); (293, [292]); (295, [294]); (297, [296]); (299, [298]);
    (301, [300]); (303, [302]); (305, [73]); (307, [306]); (309, [308]); (311, [310]);
    (314, [313]); (316, [315]); (318, [317]); (320, [319]); (322, [321]); (324, [323]);
    (326, [325]); (328, [327]); (329, [700; 78]); (331, [330]); (333, [332]); (335, [334]);
    (337, [336]); (339, [338]); (341, [340]); (343, [342]); (345, [344]); (347, [346]);
    (349, [348]); (351, [350]); (353, [352]); (355, [354]); (357, [356]); (359, [358]);
    (361, [360]); (363, [362]); (365, [364]); (367, [366]); (369, [368]); (371, [370]);
    (373, [372]); (375, [374]); (378, [377]); (380, [379]); (382, [381]); (383, [83]);
    (384, [579]); (387, [386]); (389, [388]); (392, [391]); (396, [395]); (402, [401]);
    (405, [502]); (409, [408]); (410, [573]); (414, [544]); (417, [416]); (419, [418]);
    (421, [420]); (424, [423]); (429, [428]); (432, [431]); (436, [435]); (438, [437]);
    (441, [440]); (445, [444]); (447, [503]); (453, [452]); (454, [452]); (456, [455]);
    (457, [455]); (459, [458]); (460, [458]); (462, [461]); (464, [463]); (466, [465]);
    (468, [467]); (470, [469]); (472, [471]); (474, [473]); (476, [475]); (477, [398]);
    (479, [478]); (481, [480]); (483, [482]); (485, [484]); (487, [486]); (489, [488]);
    (491, [490]); (493, [492]); (495, [494]); (496, [74; 780]); (498, [497]); (499, [497]);
    (501, [500]); (505, [504]); (507, [506]); (509, [508]); (511, [510]); (513, [512]);
    (515, [514]); (517, [516]); (519, [518]); (521, [520]); (523, [522]); (525, [524]);
    (527, [526]); (529, [528]); (531, [530]); (533, [532]); (535, [534]); (537, [536]);
    (539, [538]); (541, [540]); (543, [542]); (547, [546]); (549, [548]); (551, [550]);
    (553, [552]); (555, [554]); (557, [556]); (559, [558]); (561, [560]); (563, [562]);
    (572, [571]); (575, [11390]); (576, [11391]); (578, [577]); (583, [582]); (585, [584]);
    (587, [586]); (589, [588]); (591, [590]); (592, [11375]); (593, [11373]); (594, [11376]);
    (595, [385]); (596, [390]); (598, [393]); (599, [394]); (601, [399]); (603, [400]);
    (604, [42923]); (608, [403]); (609, [42924]); (611, [404]); (613, [42893]); (614, [42922]);
    (616, [407]); (617, [406]); (618, [42926]); (619, [11362]); (620, [42925]); (623, [412]);
    (625, [11374]); (626, [413]); (629, [415]); (637, [11364]); (640, [422]); (642, [42949]);
    (643, [425]); (647, [42929]); (648, [430]); (649, [580]); (650, [433]); (651, [434]);
    (652, [581]); (658, [439]); (669, [42930]); (670, [42928]); (837, [921]); (881, [880]);
    (883, [882]); (887, [886]); (891, [1021]); (892, [1022]); (893, [1023]);
    (912, [921; 776; 769]); (940, [902]); (941, [904]); (942, [905]); (943, [906]);
    (944, [933; 776; 769]); (945, [913]); (946, [914]); (947, [915]); (948, [916]); (949, [917]);
    (950, [918]); (951, [919]); (952, [920]); (953, [921]); (954, [922]); (955, [923]);
    (956, [924]); (957, [925]); (958, [926]); (959, [927]); (960, [928]); (961, [929]);
    (962, [931]); (963, [931]); (964, [932]); (965, [933]); (966, [934]); (967, [935]);
    (968, [936]); (969, [937]); (970, [938]); (971, [939]); (972, [908]); (973, [910]);
    (974, [911]); (976, [914]); (977, [920]); (981, [934]); (982, [928]); (983, [975]);
    (985, [984]); (987, [986]); (989, [988]); (991, [990]); (993, [992]); (995, [994]);
    (997, [996]); (999, [998]); (1001, [1000]); (1003, [1002]); (1005, [1004]); (1007, [1006]);
    (1008, [922]); (1009, [929]); (1010, [1017]); (1011, [895]); (1013, [917]); (1016, [1015]);
    (1019, [1018]); (1072, [1040]); (1073, [1041]); (1074, [1042]); (1075, [1043]);
    (1076, [1044]); (1077, [1045]); (1078, [1046]); (1079, [1047]); (1080, [1048]);
    (1081, [1049]); (1082, [1050]); (1083, [1051]); (1084, [1052]); (1085, [1053]);
    (1086, [1054]); (1087, [1055]); (1088, [1056]); (1089, [1057]); (1090, [1058]);
    (1091, [1059]); (1092, [1060]); (1093, [1061]); (1094, [1062]); (1095, [1063]);
    (1096, [1064]); (1097, [1065]); (1098, [1066]); (1099, [1067]); (1100, [1068]);
    (1101, [1069]); (1102, [1070]); (1103, [1071]); (1104, [1024]); (1105, [1025]);
    (1106, [1026]); (1107, [1027]); (1108, [1028]); (1109, [1029]); (1110, [1030]);
    (1111, [1031]); (1112, [1032]); (1113, [1033]); (1114, [1034]); (1115, [1035]);
    (1116, [1036]); (1117, [1037]); (1118, [1038]); (1119, [1039]); (1121, [1120]);
    (1123, [1122]); (1125, [1124]); (1127, [1126]); (1129, [1128]); (1131, [1130]);
    (1133, [1132]); (1135, [1134]); (1137, [1136]); (1139, [1138]); (1141, [1140]);
    (1143, [1142]); (1145, [1144]); (1147, [1146]); (1149, [1148]); (1151, [1150]);
    (1153, [1152]); (1163, [1162]); (1165, [1164]); (1167, [1166]); (1169, [1168]);
    (1171, [1170]); (1173, [1172]); (1175, [1174]); (1177, [1176]); (1179, [1178]);
    (1181, [1180]); (1183, [1182]); (1185, [1184]); (1187, [1186]); (1189, [1188]);
    (1191, [1190]); (1193, [1192]); (1195, [1194]); (1197, [1196]); (1199, [1198]);
    (1201, [1200]); (1203, [1202]); (1205, [1204]); (1207, [1206]); (1209, [1208]);
    (1211, [1210]); (1213, [1212]); (1215, [1214]); (1218, [1217]); (1220, [1219]);
    (1222, [1221]); (1224, [1223]); (1226, [1225]); (1228, [1227]); (1230, [1229]);
    (1231, [1216]); (1233, [1232]); (1235, [1234]); (1237, [1236]); (1239, [1238]);
    (1241, [1240]); (1243, [1242]); (1245, [1244]); (1247, [1246]); (1249, [1248]);
    (1251, [1250]); (1253, [1252]); (1255, [1254]); (1257, [1256]); (1259, [1258]);
    (1261, [1260]); (1263, [1262]); (1265, [1264]); (1267, [1266]); (1269, [1268]);
    (1271, [1270]); (1273, [1272]); (1275, [1274]); (1277, [1276]); (1279, [1278]);
    (1281, [1280]); (1283, [1282]); (1285, [1284]); (1287, [1286]); (1289, [1288]);
    (1291, [1290]); (1293, [1292]); (1295, [1294]); (1297, [1296]); (1299, [1298]);
    (1301, [1300]); (1303, [1302]); (1305, [1304]); (1307, [1306]); (1309, [1308]);
    (1311, [1310]); (1313, [1312]); (1315, [1314]); (1317, [1316]); (1319, [1318]);
    (1321, [1320]); (1323, [1322]); (1325, [1324]); (1327, [1326]); (1377, [1329]);
    (1378, [1330]); (1379, [1331]); (1380, [1332]); (1381, [1333]); (1382, [1334]);
    (1383, [1335]); (1384, [1336]); (1385, [1337]); (1386, [1338]); (1387, [1339]);
    (1388, [1340]); (1389, [1341]); (1390, [1342]); (1391, [1343]); (1392, [1344]);
    (1393, [1345]); (1394, [1346]); (1395, [1347]); (1396, [1348]); (1397, [1349]);
    (1398, [1350]); (1399, [1351]); (1400, [1352]); (1401, [1353]); (1402, [1354]);
    (1403, [1355]); (1404, [1356]); (1405, [1357]); (1406, [1358]); (1407, [1359]);
    (1408, [1360]); (1409, [1361]); (1410, [1362]); (1411, [1363]); (1412, [1364]);
    (1413, [1365]); (1414, [1366]); (1415, [1333; 1362]); (4304, [7312]); (4305, [7313]);
    (4306, [7314]); (4307, [7315]); (4308, [7316]); (4309, [7317]); (4310, [7318]);
    (4311, [7319]); (4312, [7320]); (4313, [7321]); (4314, [7322]); (4315, [7323]);
    (4316, [7324]); (4317, [7325]); (4318, [7326]); (4319, [7327]); (4320, [7328]);
    (4321, [7329]); (4322, [7330]); (4323, [7331]); (4324, [7332]); (4325, [7333]);
    (4326, [7334]); (4327, [7335]); (4328, [7336]); (4329, [7337]); (4330, [7338]);
    (4331, [7339]); (4332, [7340]); (4333, [7341]); (4334, [7342]); (4335, [7343]);
    (4336, [7344]); (4337, [7345]); (4338, [7346]); (4339, [7347]); (4340, [7348]);
    (4341, [7349]); (4342, [7350]); (4343, [7351]); (4344, [7352]); (4345, [7353]);
    (4346, [7354]); (4349, [7357]); (4350, [7358]); (4351, [7359]); (5112, [5104]);
    (5113, [5105]); (5114, [5106]); (5115, [5107]); (5116, [5108]); (5117, [5109]);
    (7296, [1042]); (7297, [1044]); (7298, [1054]); (7299, [1057]); (7300, [1058]);
    (7301, [1058]); (7302, [1066]); (7303, [1122]); (7304, [42570]); (7545, [42877]);
    (7549, [11363]); (7566, [42950]); (7681, [7680]); (7683, [7682]); (7685, [7684]);
    (7687, [7686]); (7689, [7688]); (7691, [7690]); (7693, [7692]); (7695, [7694]);
    (7697, [7696]); (7699, [7698]); (7701, [7700]); (7703, [7702]); (7705, [7704]);
    (7707, [7706]); (7709, [7708]); (7711, [7710]); (7713, [7712]); (7715, [7714]);
    (7717, [7716]); (7719, [7718]); (7721, [7720]); (7723, [7722]); (7725, [7724]);
    (7727, [7726]); (7729, [7728]); (7731, [7730]); (7733, [7732]); (7735, [7734]);
    (7737, [7736]); (7739, [7738]); (7741, [7740]); (7743, [7742]); (7745, [7744]);
    (7747, [7746]); (7749, [7748]); (7751, [7750]); (7753, [7752]); (7755, [7754]);
    (7757, [7756]); (7759, [7758]); (7761, [7760]); (7763, [7762]); (7765, [7764]);
    (7767, [7766]); (7769, [7768]); (7771, [7770]); (7773, [7772]); (7775, [7774]);
    (7777, [7776]); (7779, [7778]); (7781, [7780]); (7783, [7782]); (7785, [7784]);
    (7787, [7786]); (7789, [7788]); (7791, [7790]); (7793, [7792]); (7795, [7794]);
    (7797, [7796]); (7799, [7798]); (7801, [7800]); (7803, [7802]); (7805, [7804]);
    (7807, [7806]); (7809, [7808]); (7811, [7810]); (7813, [7812]); (7815, [7814]);
    (7817, [7816]); (7819, [7818]); (7821, [7820]); (7823, [7822]); (7825, [7824]);
    (7827, [7826]); (7829, [7828]); (7830, [72; 817]); (7831, [84; 776]); (7832, [87; 778]);
    (7833, [89; 778]); (7834, [65; 702]); (7835, [7776]); (7841, [7840]); (7843, [7842]);
    (7845, [7844]); (7847, [7846]); (7849, [7848]); (7851, [7850]); (7853, [7852]);
    (7855, [7854]); (7857, [7856]); (7859, [7858]); (7861, [7860]); (7863, [7862]);
    (7865, [7864]); (7867, [7866]); (7869, [7868]); (7871, [7870]); (7873, [7872]);
    (7875, [7874]); (7877, [7876]); (7879, [7878]); (7881, [7880]); (7883, [7882]);
    (7885, [7884]); (7887, [7886]); (7889, [7888]); (7891, [7890]); (7893, [7892]);
    (7895, [7894]); (7897, [7896]); (7899, [7898]); (7901, [7900]); (7903, [7902]);
    (7905, [7904]); (7907, [7906]); (7909, [7908]); (7911, [7910]); (7913, [7912]);
    (7915, [7914]); (7917, [7916]); (7919, [7918]); (7921, [7920]); (7923, [7922]);
    (7925, [7924]); (7927, [7926]); (7929, [7928]); (7931, [7930]); (7933, [7932]);
    (7935, [7934]); (7936, [7944]); (7937, [7945]); (7938, [7946]); (7939, [7947]);
    (7940, [7948]); (7941, [7949]); (7942, [7950]); (7943, [7951]); (7952, [7960]);
    (7953, [7961]); (7954, [7962]); (7955, [7963]); (7956, [7964]); (7957, [7965]);
    (7968, [7976]); (7969, [7977]); (7970, [7978]); (7971, [7979]); (7972, [7980]);
    (7973, [7981]); (7974, [7982]); (7975, [7983]); (7984, [7992]); (7985, [7993]);
    (7986, [7994]); (7987, [7995]); (7988, [7996]); (7989, [7997]); (7990, [7998]);
    (7991, [7999]); (8000, [8008]); (8001, [8009]); (8002, [8010]); (8003, [8011]);
    (8004, [8012]); (8005, [8013]); (8016, [933; 787]); (8017, [8025]); (8018, [933; 787; 768]);
    (8019, [8027]); (8020, [933; 787; 769]); (8021, [8029]); (8022, [933; 787; 834]);
    (8023, [8031]); (8032, [8040]); (8033, [8041]); (8034, [8042]); (8035, [8043]);
    (8036, [8044]); (8037, [8045]); (8038, [8046]); (8039, [8047]); (8048, [8122]);
    (8049, [8123]); (8050, [8136]); (8051, [8137]); (8052, [8138]); (8053, [8139]);
    (8054, [8154]); (8055, [8155]); (8056, [8184]); (8057, [8185]); (8058, [8170]);
    (8059, [8171]); (8060, [8186]); (8061, [8187]); (8064, [7944; 921]); (8065, [7945; 921]);
    (8066, [7946; 921]); (8067, [7947; 921]); (8068, [7948; 921]); (8069, [7949; 921]);
    (8070, [7950; 921]); (8071, [7951; 921]); (8072, [7944; 921]); (8073, [7945; 921]);
    (8074, [7946; 921]); (8075, [7947; 921]); (8076, [7948; 921]); (8077, [7949; 921]);
    (8078, [7950; 921]); (8079, [7951; 921]); (8080, [7976; 921]); (8081, [7977; 921]);
    (8082, [7978; 921]); (8083, [7979; 921]); (8084, [7980; 921]); (8085, [7981; 921]);
    (8086, [7982; 921]); (8087, [7983; 921]); (8088, [7976; 921]); (8089, [7977; 921]);
    (8090, [7978; 921]); (8091, [7979; 921]); (8092, [7980; 921]); (8093, [7981; 921]);
    (8094, [7982; 921]); (8095, [7983; 921]); (8096, [8040; 921]); (8097, [8041; 921]);
    (8098, [8042; 921]); (8099, [8043; 921]); (8100, [8044; 921]); (8101, [8045; 921]);
    (8102, [8046; 921]); (8103, [8047; 921]); (8104, [8040; 921]); (8105, [8041; 921]);
    (8106, [8042; 921]); (8107, [8043; 921]); (8108, [8044; 921]); (8109, [8045; 921]);
    (8110, [8046; 921]); (8111, [8047; 921]); (8112, [8120]); (8113, [8121]); (8114, [8122; 921]);
    (8115, [913; 921]); (8116, [902; 921]); (8118, [913; 834]); (8119, [913; 834; 921]);
    (8124, [913; 921]); (8126, [921]); (8130, [8138; 921]); (8131, [919; 921]);
    (8132, [905; 921]); (8134, [919; 834]); (8135, [919; 834; 921]); (8140, [919; 921]);
    (8144, [8152]); (8145, [8153]); (8146, [921; 776; 768]); (8147, [921; 776; 769]);
    (8150, [921; 834]); (8151, [921; 776; 834]); (8160, [8168]); (8161, [8169]);
    (8162, [933; 776; 768]); (8163, [933; 776; 769]); (8164, [929; 787]); (8165, [8172]);
    (8166, [933; 834]); (8167, [933; 776; 834]); (8178, [8186; 921]); (8179, [937; 921]);
    (8180, [911; 921]); (8182, [937; 834]); (8183, [937; 834; 921]); (8188, [937; 921]);
    (8526, [8498]); (8560, [8544]); (8561, [8545]); (8562, [8546]); (8563, [8547]);
    (8564, [8548]); (8565, [8549]); (8566, [8550]); (8567, [8551]); (8568, [8552]);
    (8569, [8553]); (8570, [8554]); (8571, [8555]); (8572, [8556]); (8573, [8557]);
    (8574, [8558]); (8575, [8559]); (8580, [8579]); (9424, [9398]); (9425, [9399]);
    (9426, [9400]); (9427, [9401]); (9428, [9402]); (9429, [9403]); (9430, [9404]);
    (9431, [9405]); (9432, [9406]); (9433, [9407]); (9434, [9408]); (9435, [9409]);
    (9436, [9410]); (9437, [9411]); (9438, [9412]); (9439, [9413]); (9440, [9414]);
    (9441, [9415]); (9442, [9416]); (9443, [9417]); (9444, [9418]); (9445, [9419]);
    (9446, [9420]); (9447, [9421]); (9448, [9422]); (9449, [9423]); (11312, [11264]);
    (11313, [11265]); (11314, [11266]); (11315, [11267]); (11316, [11268]); (11317, [11269]);
    (11318, [11270]); (11319, [11271]); (11320, [11272]); (11321, [11273]); (11322, [11274]);
    (11323, [11275]); (11324, [11276]); (11325, [11277]); (11326, [11278]); (11327, [11279]);
    (11328, [11280]); (11329, [11281]); (11330, [11282]); (11331, [11283]); (11332, [11284]);
    (11333, [11285]); (11334, [11286]); (11335, [11287]); (11336, [11288]); (11337, [11289]);
    (11338, [11290]); (11339, [11291]); (11340, [11292]); (11341, [11293]); (11342, [11294]);
    (11343, [11295]); (11344, [11296]); (11345, [11297]); (11346, [11298]); (11347, [11299]);
    (11348, [11300]); (11349, [11301]); (11350, [11302]); (11351, [11303]); (11352, [11304]);
    (11353, [11305]); (11354, [11306]); (11355, [11307]); (11356, [11308]); (11357, [11309]);
    (11358, [11310]); (11359, [11311]); (11361, [11360]); (11365, [570]); (11366, [574]);
    (11368, [11367]); (11370, [11369]); (11372, [11371]); (11379, [11378]); (11382, [11381]);
    (11393, [11392]); (11395, [11394]); (11397, [11396]); (11399, [11398]); (11401, [11400]);
    (11403, [11402]); (11405, [11404]); (11407, [11406]); (11409, [11408]); (11411, [11410]);
    (11413, [11412]); (11415, [11414]); (11417, [11416]); (11419, [11418]); (11421, [11420]);
    (11423, [11422]); (11425, [11424]); (11427, [11426]); (11429, [11428]); (11431, [11430]);
    (11433, [11432]); (11435, [11434]); (11437, [11436]); (11439, [11438]); (11441, [11440]);
    (11443, [11442]); (11445, [11444]); (11447, [11446]); (11449, [11448]); (11451, [11450]);
    (11453, [11452]); (11455, [11454]); (11457, [11456]); (11459, [11458]); (11461, [11460]);
    (11463, [11462]); (11465, [11464]); (11467, [11466]); (11469, [11468]); (11471, [11470]);
    (11473, [11472]); (11475, [11474]); (11477, [11476]); (11479, [11478]); (11481, [11480]);
    (11483, [11482]); (11485, [11484]); (11487, [11486]); (11489, [11488]); (11491, [11490]);
    (11500, [11499]); (11502, [11501]); (11507, [11506]); (11520, [4256]); (11521, [4257]);
    (11522, [4258]); (11523, [4259]); (11524, [4260]); (11525, [4261]); (11526, [4262]);
    (11527, [4263]); (11528, [4264]); (11529, [4265]); (11530, [4266]); (11531, [4267]);
    (11532, [4268]); (11533, [4269]); (11534, [4270]); (11535, [4271]); (11536, [4272]);
    (11537, [4273]); (11538, [4274]); (11539, [4275]); (11540, [4276]); (11541, [4277]);
    (11542, [4278]); (11543, [4279]); (11544, [4280]); (11545, [4281]); (11546, [4282]);
    (11547, [4283]); (11548, [4284]); (11549, [4285]); (11550, [4286]); (11551, [4287]);
    (11552, [4288]); (11553, [4289]); (11554, [4290]); (11555, [4291]); (11556, [4292]);
    (11557, [4293]); (11559, [4295]); (11565, [4301]); (42561, [42560]); (42563, [42562]);
    (42565, [42564]); (42567, [42566]); (42569, [42568]); (42571, [42570]); (42573, [42572]);
    (42575, [42574]); (42577, [42576]); (42579, [42578]); (42581, [42580]); (42583, [42582]);
    (42585, [42584]); (42587, [42586]); (42589, [42588]); (42591, [42590]); (42593, [42592]);
    (42595, [42594]); (42597, [42596]); (42599, [42598]); (42601, [42600]); (42603, [42602]);
    (42605, [42604]); (42625, [42624]); (42627, [42626]); (42629, [42628]); (42631, [42630]);
    (42633, [42632]); (42635, [42634]); (42637, [42636]); (42639, [42638]); (42641, [42640]);
    (42643, [42642]); (42645, [42644]); (42647, [42646]); (42649, [42648]); (42651, [42650]);
    (42787, [42786]); (42789, [42788]); (42791, [42790]); (42793, [42792]); (42795, [42794]);
    (42797, [42796]); (42799, [42798]); (42803, [42802]); (42805, [42804]); (42807, [42806]);
    (42809, [42808]); (42811, [42810]); (42813, [42812]); (42815, [42814]); (42817, [42816]);
    (42819, [42818]); (42821, [42820]); (42823, [42822]); (42825, [42824]); (42827, [42826]);
    (42829, [42828]); (42831, [42830]); (42833, [42832]); (42835, [42834]); (42837, [42836]);
    (42839, [42838]); (42841, [42840]); (42843, [42842]); (42845, [42844]); (42847, [42846]);
    (42849, [42848]); (42851, [42850]); (42853, [42852]); (42855, [42854]); (42857, [42856]);
    (42859, [42858]); (42861, [42860]); (42863, [42862]); (42874, [42873]); (42876, [42875]);
    (42879, [42878]); (42881, [42880]); (42883, [42882]); (42885, [42884]); (42887, [42886]);
    (42892, [42891]); (42897, [42896]); (42899, [42898]); (42900, [42948]); (42903, [42902]);
    (42905, [42904]); (42907, [42906]); (42909, [42908]); (42911, [42910]); (42913, [42912]);
    (42915, [42914]); (42917, [42916]); (42919, [42918]); (42921, [42920]); (42933, [42932]);
    (42935, [42934]); (42937, [42936]); (42939, [42938]); (42941, [42940]); (42943, [42942]);
    (42945, [42944]); (42947, [42946]); (42952, [42951]); (42954, [42953]); (42961, [42960]);
    (42967, [42966]); (42969, [42968]); (42998, [42997]); (43859, [42931]); (43888, [5024]);
    (43889, [5025]); (43890, [5026]); (43891, [5027]); (43892, [5028]); (43893, [5029]);
    (43894, [5030]); (43895, [5031]); (43896, [5032]); (43897, [5033]); (43898, [5034]);
    (43899, [5035]); (43900, [5036]); (43901, [5037]); (43902, [5038]); (43903, [5039]);
    (43904, [5040]); (43905, [5041]); (43906, [5042]); (43907, [5043]); (43908, [5044]);
    (43909, [5045]); (43910, [5046]); (43911, [5047]); (43912, [5048]); (43913, [5049]);
    (43914, [5050]); (43915, [5051]); (43916, [5052]); (43917, [5053]); (43918, [5054]);
    (43919, [5055]); (43920, [5056]); (43921, [5057]); (43922, [5058]); (43923, [5059]);
    (43924, [5060]); (43925, [5061]); (43926, [5062]); (43927, [5063]); (43928, [5064]);
    (43929, [5065]); (43930, [5066]); (43931, [5067]); (43932, [5068]); (43933, [5069]);
    (43934, [5070]); (43935, [5071]); (43936, [5072]); (43937, [5073]); (43938, [5074]);
    (43939, [5075]); (43940, [5076]); (43941, [5077]); (43942, [5078]); (43943, [5079]);
    (43944, [5080]); (43945, [5081]); (43946, [5082]); (43947, [5083]); (43948, [5084]);
    (43949, [5085]); (43950, [5086]); (43951, [5087]); (43952, [5088]); (43953, [5089]);
    (43954, [5090]); (43955, [5091]); (43956, [5092]); (43957, [5093]); (43958, [5094]);
    (43959, [5095]); (43960, [5096]); (43961, [5097]); (43962, [5098]); (43963, [5099]);
    (43964, [5100]); (43965, [5101]); (43966, [5102]); (43967, [5103]); (64256, [70; 70]);
    (64257, [70; 73]); (64258, [70; 76]); (64259, [70; 70; 73]); (64260, [70; 70; 76]);
    (64261, [83; 84]); (64262, [83; 84]); (64275, [1348; 1350]); (64276, [1348; 1333]);
    (64277, [1348; 1339]); (64278, [1358; 1350]); (64279, [1348; 1341]); (65345, [65313]);
    (65346, [65314]); (65347, [65315]); (65348, [65316]); (65349, [65317]); (65350, [65318]);
    (65351, [65319]); (65352, [65320]); (65353, [65321]); (65354, [65322]); (65355, [65323]);
    (65356, [65324]); (65357, [65325]); (65358, [65326]); (65359, [65327]); (65360, [65328]);
    (65361, [65329]); (65362, [65330]); (65363, [65331]); (65364, [65332]); (65365, [65333]);
    (65366, [65334]); (65367, [65335]); (65368, [65336]); (65369, [65337]); (65370, [65338]);
    (66600, [66560]); (66601, [66561]); (66602, [66562]); (66603, [66563]); (66604, [66564]);
    (66605, [66565]); (66606, [66566]); (66607, [66567]); (66608, [66568]); (66609, [66569]);
    (66610, [66570]); (66611, [66571]); (66612, [66572]); (66613, [66573]); (66614, [66574]);
    (66615, [66575]); (66616, [66576]); (66617, [66577]); (66618, [66578]); (66619, [66579]);
    (66620, [66580]); (66621, [66581]); (66622, [66582]); (66623, [66583]); (66624, [66584]);
    (66625, [66585]); (66626, [66586]); (66627, [66587]); (66628, [66588]); (66629, [66589]);
    (66630, [66590]); (66631, [66591]); (66632, [66592]); (66633, [66593]); (66634, [66594]);
    (66635, [66595]); (66636, [66596]); (66637, [66597]); (66638, [66598]); (66639, [66599]);
    (66776, [66736]); (66777, [66737]); (66778, [66738]); (66779, [66739]); (66780, [66740]);
    (66781, [66741]); (66782, [66742]); (66783, [66743]); (66784, [66744]); (66785, [66745]);
    (66786, [66746]); (66787, [66747]); (66788, [66748]); (66789, [66749]); (66790, [66750]);
    (66791, [66751]); (66792, [66752]); (66793, [66753]); (66794, [66754]); (66795, [66755]);
    (66796, [66756]); (66797, [66757]); (66798, [66758]); (66799, [66759]); (66800, [66760]);
    (66801, [66761]); (66802, [66762]); (66803, [66763]); (66804, [66764]); (66805, [66765]);
    (66806, [66766]); (66807, [66767]); (66808, [66768]); (66809, [66769]); (66810, [66770]);
    (66811, [66771]); (66967, [66928]); (66968, [66929]); (66969, [66930]); (66970, [66931]);
    (66971, [66932]); (66972, [66933]); (66973, [66934]); (66974, [66935]); (66975, [66936]);
    (66976, [66937]); (66977, [66938]); (66979, [66940]); (66980, [66941]); (66981, [66942]);
    (66982, [66943]); (66983, [66944]); (66984, [66945]); (66985, [66946]); (66986, [66947]);
    (66987, [66948]); (66988, [66949]); (66989, [66950]); (66990, [66951]); (66991, [66952]);
    (66992, [66953]); (66993, [66954]); (66995, [66956]); (66996, [66957]); (66997, [66958]);
    (66998, [66959]); (66999, [66960]); (67000, [66961]); (67001, [66962]); (67003, [66964]);
    (67004, [66965]); (68800, [68736]); (68801, [68737]); (68802, [68738]); (68803, [68739]);
    (68804, [68740]); (68805, [68741]); (68806, [68742]); (68807, [68743]); (68808, [68744]);
    (68809, [68745]); (68810, [68746]); (68811, [68747]); (68812, [68748]); (68813, [68749]);
    (68814, [68750]); (68815, [68751]); (68816, [68752]); (68817, [68753]); (68818, [68754]);
    (68819, [68755]); (68820, [68756]); (68821, [68757]); (68822, [68758]); (68823, [68759]);
    (68824, [68760]); (68825, [68761]); (68826, [68762]); (68827, [68763]); (68828, [68764]);
    (68829, [68765]); (68830, [68766]); (68831, [68767]); (68832, [68768]); (68833, [68769]);
    (68834, [68770]); (68835, [68771]); (68836, [68772]); (68837, [68773]); (68838, [68774]);
    (68839, [68775]); (68840, [68776]); (68841, [68777]); (68842, [68778]); (68843, [68779]);
    (68844, [68780]); (68845, [68781]); (68846, [68782]); (68847, [68783]); (68848, [68784]);
    (68849, [68785]); (68850, [68786]); (71872, [71840]); (71873, [71841]); (71874, [71842]);
    (71875, [71843]); (71876, [71844]); (71877, [71845]); (71878, [71846]); (71879, [71847]);
    (71880, [71848]); (71881, [71849]); (71882, [71850]); (71883, [71851]); (71884, [71852]);
    (71885, [71853]); (71886, [71854]); (71887, [71855]); (71888, [71856]); (71889, [71857]);
    (71890, [71858]); (71891, [71859]); (71892, [71860]); (71893, [71861]); (71894, [71862]);
    (71895, [71863]); (71896, [71864]); (71897, [71865]); (71898, [71866]); (71899, [71867]);
    (71900, [71868]); (71901, [71869]); (71902, [71870]); (71903, [71871]); (93792, [93760]);
    (93793, [93761]); (93794, [93762]); (93795, [93763]); (93796, [93764]); (93797, [93765]);
    (93798, [93766]); (93799, [93767]); (93800, [93768]); (93801, [93769]); (93802, [93770]);
    (93803, [93771]); (93804, [93772]); (93805, [93773]); (93806, [93774]); (93807, [93775]);
    (93808, [93776]); (93809, [93777]); (93810, [93778]); (93811, [93779]); (93812, [93780]);
    (93813, [93781]); (93814, [93782]); (93815, [93783]); (93816, [93784]); (93817, [93785]);
    (93818, [93786]); (93819, [93787]); (93820, [93788]); (93821, [93789]); (93822, [93790]);
    (93823, [93791]); (125218, [125184]); (125219, [125185]); (125220, [125186]);
    (125221, [125187]); (125222, [125188]); (125223, [125189]); (125224, [125190]);
    (125225, [125191]); (125226, [125192]); (125227, [125193]); (125228, [125194]);
    (125229, [125195]); (125230, [125196]); (125231, [125197]); (125232, [125198]);
    (125233, [125199]); (125234, [125200]); (125235, [125201]); (125236, [125202]);
    (125237, [125203]); (125238, [125204]); (125239, [125205]); (125240, [125206]);
    (125241, [125207]); (125242, [125208]); (125243, [125209]); (125244, [125210]);
    (125245, [125211]); (125246, [125212]); (125247, [125213]); (125248, [125214]);
    (125249, [125215]); (125250, [125216]); (125251, [125217])
  ]%N.

Fixpoint assoc (cp : N) (t : list (N * list N)) : option (list N) :=
  match t with
  | [] => None
  | (k, u) :: t' => if (cp =? k)%N then Some u else assoc cp t'
  end.

(** [ch.upper()] *)
Definition upper_cp (cp : N) : list N :=
  match assoc cp upper_table with
  | Some u => u
  | None => [cp]
  end.

(** [s.upper()] *)
Definition upper (s : text) : text := flat_map upper_cp s.

(** [s.lstrip()] *)
Fixpoint lstrip (s : text) : text :=
  match s with
  | [] => []
  | cp :: s' => if isspace cp then lstrip s' else s
  end.

(** [s.rstrip()] *)
Fixpoint rstrip (s : text) : text :=
  match s with
  | [] => []
  | cp :: s' =>
      match rstrip s' with
      | [] => if isspace cp then [] else [cp]
      | r => cp :: r
      end
  end.

(** [s.strip()] *)
Definition strip (s : text) : text := rstrip (lstrip s).

(** The UTF-8 bytes of a code point. *)
Definition utf8 (cp : N) : list N :=
  (if cp <? 128 then [cp]
   else if cp <? 2048 then [192 + cp / 64; 128 + cp mod 64]
   else if cp <? 65536 then
     [224 + cp / 4096; 128 + (cp / 64) mod 64; 128 + cp mod 64]
   else
     [240 + cp / 262144; 128 + (cp / 4096) mod 64; 128 + (cp / 64) mod 64;
      128 + cp mod 64])%N.

(** [s.encode("utf-8")], as a string of bytes. *)
Definition encode (s : text) : string :=
  string_of_list_ascii (map ascii_of_N (flat_map utf8 s)).

(** The code points of an ASCII literal. *)
Definition of_ascii (s : string) : text :=
  map N_of_ascii (list_ascii_of_string s).

Fixpoint eqb_text (a b : text) : bool :=
  match a, b with
  | [], [] => true
  | x :: a', y :: b' => (x =? y)%N && eqb_text a' b'
  | _, _ => false
  end.

End Uni.

(** ** The chapter table *)

Definition icd11_ranges : list (string * (string * string)) :=
  [ ("1. Certain infectious or parasitic diseases", ("1A00", "1H0Z"));
    ("2. Neoplasms", ("2A00", "2F9Z"));
    ("3. Diseases of the blood or blood-forming organs", ("3A00", "3C0Z"));
    ("4. Diseases of the immune system", ("4A00", "4B4Z"));
    ("5. Endocrine, nutritional and metabolic diseases", ("5A00", "5D46"));
    ("6. Mental, behavioural and neurodevelopmental disorders", ("6A00", "6E8Z"));
    ("7. Sleep-wake disorders", ("7A00", "7B2Z"));
    ("8. Diseases of the nervous system", ("8A00", "8E7Z"));
    ("9. Diseases of the visual system", ("9A00", "9E1Z"));
    ("10. Diseases of the ear or mastoid process", ("AA00", "AC0Z"));
    ("11. Diseases of the circulatory system", ("BA00", "BE2Z"));
    ("12. Diseases of the respiratory system", ("CA00", "CB7Z"));
    ("13. Diseases of the digestive system", ("DA00", "DE2Z"));
    ("14. Diseases of the skin or subcutaneous tissue", ("EA00", "EM0Z"));
    ("15. Diseases of musculoskeletal system", ("FA00", "FC0Z"));
    ("16. Diseases of the genitourinary system", ("GA00", "GC8Z"));
    ("17. Sexual health conditions", ("HA00", "HA8Z"));
    ("18. Pregnancy/childbirth", ("JA00", "JB6Z"));
    ("19. Perinatal conditions", ("KA00", "KD5Z"));
    ("20. Developmental anomalies", ("LA00", "LD9Z"));
    ("21. Symptoms/clinical findings NEC", ("MA00", "MH2Y"));
    ("22. Injury/poisoning/external causes", ("NA00", "NF2Z")) ].

(** ** The category function *)

(** [start <= code <= end] *)
Definition in_range (code start end_ : string) : bool :=
  Py.le start code && Py.le code end_.

(** [code.startswith(start[:2])] *)
Definition prefix_hit (code start : string) : bool :=
  Py.startswith code (Py.slice_to 2 start).

(** The body of the [for] loop of [find_category], over the entries that
    remain to be visited. *)
Fixpoint find_category_loop (code : string)
    (ranges : list (string * (string * string))) : string :=
  match ranges with
  | [] => "Unknown"
  | (category, (start, end_)) :: rest =>
      if in_range code start end_ then category
      else if prefix_hit code start then category
      else find_category_loop code rest
  end.

(** [str(code).strip().upper()] *)
Definition normalize (code : Py.object) : string :=
  Py.upper (Py.strip (Py.str code)).

Definition find_category (code : Py.object) : string :=
  find_category_loop (normalize code) icd11_ranges.

(** [classify] of the specification, on strings. *)
Definition classify (c : string) : string := find_category (Py.Str c).

(** [find_category] on a Python string given by its code points: Python's
    [strip] and [upper], then the loop on the UTF-8 bytes of the result. *)
Definition find_category_text (code : Uni.text) : string :=
  find_category_loop (Uni.encode (Uni.upper (Uni.strip code))) icd11_ranges.

(** The call [find_category(code)]: [str(code)] may raise; otherwise the
    text is stripped, uppercased and looked up. *)
Definition find_category_call (code : Py.object) : Py.result string :=
  match Py.str_call code with
  | Py.Raises e => Py.Raises e
  | Py.Returns s =>
      Py.Returns (find_category_loop (Py.upper (Py.strip s)) icd11_ranges)
  end.


(** ** The data frame *)

Module Pd.

(** One row of the session's frame: its index label, the value of the
    diagnosis column ([col] in the program: ["Diagnosis"] or ["code"]) and
    the value of the ["ICD_Category"] column. *)
Record row : Type := Row {
  label : nat;
  diagnosis : string;
  ICD_Category : string
}.

(** [df[col]]: a column, as the sequence of its values. *)
Definition column (df : list row) : list string := map diagnosis df.

(** [df["ICD_Category"]] *)
Definition categories (df : list row) : list string := map ICD_Category df.

(** [series >= x] and [series <= x]: element-wise comparison with a scalar. *)
Definition ge (series : list string) (x : string) : list bool :=
  map (fun v => Py.le x v) series.

Definition le (series : list string) (x : string) : list bool :=
  map (fun v => Py.le v x) series.

(** [mask1 & mask2] *)
Fixpoint and_ (m1 m2 : list bool) : list bool :=
  match m1, m2 with
  | b1 :: m1', b2 :: m2' => (b1 && b2) :: and_ m1' m2'
  | _, _ => []
  end.

(** [series.str.startswith(p)] *)
Definition str_startswith (series : list string) (p : string) : list bool :=
  map (fun v => Py.startswith v p) series.

(** [df[mask]]: the rows whose mask entry is [True], in the frame's order,
    with their index labels. *)
Fixpoint select (df : list row) (mask : list bool) : list row :=
  match df, mask with
  | r :: df', b :: mask' => if b then r :: select df' mask' else select df' mask'
  | _, _ => []
  end.

(** [series.apply(f)] *)
Definition apply {A B : Type} (f : A -> B) (series : list A) : list B :=
  map f series.

(** The frame [df] after [df["ICD_Category"] = values]. *)
Fixpoint assign_ICD_Category (df : list row) (values : list string) : list row :=
  match df, values with
  | r :: df', v :: values' =>
      Row (label r) (diagnosis r) v :: assign_ICD_Category df' values'
  | _, _ => []
  end.

(** The counting pass of [value_counts]: one entry per distinct value, in
    the order in which the values are first met. *)
Fixpoint bump (k : string) (acc : list (string * nat)) : list (string * nat) :=
  match acc with
  | [] => [(k, 1)]
  | (k', n) :: acc' =>
      if String.eqb k k' then (k', S n) :: acc' else (k', n) :: bump k acc'
  end.

Definition tally (series : list string) : list (string * nat) :=
  fold_left (fun acc k => bump k acc) series [].

(** [series.value_counts()]: the tally, passed to [sort_values] with
    [ascending=False].  The sort is the library's; it is a parameter here. *)
Definition value_counts
    (sort_values : list (string * nat) -> list (string * nat))
    (series : list string) : list (string * nat) :=
  sort_values (tally series).

(** A sort by descending count that keeps equal counts in their order. *)
Fixpoint insert_desc (e : string * nat) (l : list (string * nat)) :
    list (string * nat) :=
  match l with
  | [] => [e]
  | x :: l' => if (snd x <? snd e)%nat then e :: l else x :: insert_desc e l'
  end.

Definition sort_desc (l : list (string * nat)) : list (string * nat) :=
  fold_left (fun acc e => insert_desc e acc) l [].

End Pd.

(** ** Frames as objects: the store *)

(** Frames are objects: the session holds a reference to its frame, and
    indexing and [copy] make new objects.  A computation reads and extends
    the store, and fails on a dangling reference. *)
Definition loc : Type := nat.

Definition M (A : Type) : Type :=
  gmap nat (list Pd.row) -> option (A * gmap nat (list Pd.row)).

Definition ret {A : Type} (a : A) : M A := fun h => Some (a, h).

Definition bind {A B : Type} (m : M A) (k : A -> M B) : M B :=
  fun h => match m h with
           | Some (a, h') => k a h'
           | None => None
           end.

#[global] Instance M_ret : MRet M := @ret.
#[global] Instance M_bind : MBind M := fun A B k m => bind m k.

(** Read the frame behind a reference. *)
Definition deref (l : loc) : M (list Pd.row) :=
  fun h => match h !! l with
           | Some df => Some (df, h)
           | None => None
           end.

(** A new object holding [df]. *)
Definition alloc (df : list Pd.row) : M loc :=
  fun h => let l := fresh (dom h) in Some (l, <[l := df]> h).

(** Overwrite the object behind a reference, in place. *)
Definition update (l : loc) (df : list Pd.row) : M unit :=
  fun h => match h !! l with
           | Some _ => Some (tt, <[l := df]> h)
           | None => None
           end.

(** [df[mask]] on objects: a new frame. *)
Definition getitem (l : loc) (mask : list bool) : M loc :=
  df ← deref l; alloc (Pd.select df mask).

(** [df.copy()] *)
Definition copy (l : loc) : M loc :=
  df ← deref l; alloc df.

(** [df["ICD_Category"] = values]: the frame behind [l] is changed. *)
Definition setitem_ICD_Category (l : loc) (values : list string) : M unit :=
  df ← deref l; update l (Pd.assign_ICD_Category df values).

(** ** Loading, and the tabs *)

(** Labels [n], [n+1], ... for the rows of a fresh frame
    ([ignore_index=True]). *)
Fixpoint enumerate_from (n : nat) (values : list string) : list Pd.row :=
  match values with
  | [] => []
  | v :: values' => Pd.Row n v "" :: enumerate_from (S n) values'
  end.

(** The load step: the diagnosis column is converted to strings, stripped
    and uppercased, and the category column is computed from it. *)
Definition load_data (raw : list Py.object) : list Pd.row :=
  let data := enumerate_from 0 (map normalize raw) in
  Pd.assign_ICD_Category data (Pd.apply classify (Pd.column data)).

(** Tab 2: [summary = data["ICD_Category"].value_counts().reset_index()] *)
Definition summary (sort_values : list (string * nat) -> list (string * nat))
    (data : list Pd.row) : list (string * nat) :=
  Pd.value_counts sort_values (Pd.categories data).

(** Tab 3: the frame [filtered] of the range search, as a value. *)
Definition filtered (data : list Pd.row) (start end_ : string) : list Pd.row :=
  Pd.select data
    (Pd.and_ (Pd.ge (Pd.column data) (Py.upper start))
             (Pd.le (Pd.column data) (Py.upper end_))).

(** Tab 4: the frame [filtered_sc] of the specific code search, as a value. *)
Definition filtered_sc (data : list Pd.row) (sc : string) : list Pd.row :=
  let sel := Pd.select data (Pd.str_startswith (Pd.column data) (Py.upper sc)) in
  Pd.assign_ICD_Category sel (Pd.apply classify (Pd.column sel)).

(** Tab 3 on objects: the button's handler, given the session's reference. *)
Definition run_range_search (data : loc) (start end_ : string) : M loc :=
  df ← deref data;
  getitem data
    (Pd.and_ (Pd.ge (Pd.column df) (Py.upper start))
             (Pd.le (Pd.column df) (Py.upper end_))).

(** Tab 4 on objects: select, copy, then assign the category column of the
    copy. *)
Definition run_specific_code_search (data : loc) (sc : string) : M loc :=
  df ← deref data;
  sel ← getitem data (Pd.str_startswith (Pd.column df) (Py.upper sc));
  out ← copy sel;
  cur ← deref out;
  _ ← setitem_ICD_Category out (Pd.apply classify (Pd.column cur));
  ret out.

(** [rangeSearch] and [prefixSearch] of the specification. *)
Definition rangeSearch := filtered.
Definition prefixSearch := filtered_sc.


(** The collection of the specification's end-to-end example. *)
Definition example_collection : list Pd.row :=
  load_data [Py.Str "2A20"; Py.Str "1A00"; Py.Str "zzzz"; Py.Str "2a21"].

(** ** The upload *)

(** The three ways a file is read. *)
Inductive reader : Type := read_csv | read_excel | read_txt.

(** The [if]/[elif] chain on the file name. *)
Definition reader_of (name : string) : option reader :=
  if Py.endswith name ".csv" then Some read_csv
  else if Py.endswith name ".xlsx" then Some read_excel
  else if Py.endswith name ".txt" then Some read_txt
  else None.

(** An uploaded file that its parser reads: its name and the column names
    the parser finds in it (not used for a text file, which is read with
    [names=["Diagnosis"]]).  The contents and the parsers' own failures are
    outside the model. *)
Record upload : Type := Upload {
  name : string;
  header : list string
}.

(** The columns of the frame read from one file; [None] when the name is
    not supported. *)
Definition frame_columns (f : upload) : option (list string) :=
  match reader_of (name f) with
  | Some read_txt => Some ["Diagnosis"]
  | Some _ => Some (header f)
  | None => None
  end.

(** The loop over the uploaded files when every reader returns: the columns
    of the frames read, or the name of the first file that is not supported
    (the script stops there).  [read_files] has the readers' failures. *)
Fixpoint read_all (files : list upload) : string + list (list string) :=
  match files with
  | [] => inr []
  | f :: rest =>
      match frame_columns f with
      | None => inl (name f)
      | Some cols =>
          match read_all rest with
          | inl bad => inl bad
          | inr frames => inr (cols :: frames)
          end
      end
  end.

(** The same loop when a reader may raise: [reads f] tells whether the
    reader of [f] returns a frame.  The result is [None] when a reader
    raises, which ends the script with that exception. *)
Fixpoint read_files (reads : upload -> bool) (files : list upload) :
    option (string + list (list string)) :=
  match files with
  | [] => Some (inr [])
  | f :: rest =>
      match frame_columns f with
      | None => Some (inl (name f))
      | Some cols =>
          if reads f then
            match read_files reads rest with
            | Some (inr frames) => Some (inr (cols :: frames))
            | other => other
            end
          else None
      end
  end.

(** The columns of [pd.concat(dfs, ignore_index=True)]: those of all the
    frames, each once, in the order in which they are first met. *)
Definition concat_columns (frames : list (list string)) : list string :=
  fold_left
    (fun acc cols =>
       fold_left (fun acc c => if existsb (String.eqb c) acc then acc
                                else (acc ++ [c])%list) cols acc)
    frames [].

(** ["Diagnosis" in data.columns], then ["code" in data.columns]. *)
Definition detect_column (columns : list string) : option string :=
  if existsb (String.eqb "Diagnosis") columns then Some "Diagnosis"
  else if existsb (String.eqb "code") columns then Some "code"
  else None.

(** The columns once [data["ICD_Category"]] has been assigned. *)
Definition loaded_columns (columns : list string) : list string :=
  if existsb (String.eqb "ICD_Category") columns then columns
  else (columns ++ ["ICD_Category"])%list.

(** [col] as the search tabs compute it. *)
Definition query_column (columns : list string) : string :=
  if existsb (String.eqb "Diagnosis") columns then "Diagnosis" else "code".

(** What the load block does with the uploaded files. *)
Inductive load_outcome : Type :=
| Skipped
| Unsupported (bad : string)
| NoColumn
| Loaded (col : string).

Definition load_files (files : list upload) : load_outcome :=
  match files with
  | [] => Skipped
  | _ =>
      match read_all files with
      | inl bad => Unsupported bad
      | inr frames =>
          match detect_column (concat_columns frames) with
          | Some col => Loaded col
          | None => NoColumn
          end
      end
  end.

(** The load block when a reader may raise; [None] is the exception of the
    reader. *)
Definition load_run (reads : upload -> bool) (files : list upload) :
    option load_outcome :=
  match files with
  | [] => Some Skipped
  | _ =>
      match read_files reads files with
      | None => None
      | Some (inl bad) => Some (Unsupported bad)
      | Some (inr frames) =>
          match detect_column (concat_columns frames) with
          | Some col => Some (Loaded col)
          | None => Some NoColumn
          end
      end
  end.

(** Bytes of the ASCII range. *)
Definition is_ascii (a : ascii) : bool := (N_of_ascii a <? 128)%N.

(** A value whose [str] the interpreter's limit lets through. *)
Definition within_str_limit (v : Py.object) : bool :=
  match v with
  | Py.Int z => (Py.int_digits z <=? Py.max_str_digits)%nat
  | _ => true
  end.

(** A frame as the load step leaves it: every code is its own normal form
    and every chapter is that of its code. *)
Definition consistent (data : list Pd.row) : Prop :=
  Forall (fun r => normalize (Py.Str (Pd.diagnosis r)) = Pd.diagnosis r
                   /\ Pd.ICD_Category r = classify (Pd.diagnosis r)) data.

(** The labels a summary can show. *)
Definition chapter_labels : list string := "Unknown" :: map fst icd11_ranges.

(** Characters that come before ["A"]: digits, signs, punctuation, blanks. *)
Definition below_A (a : ascii) : bool := (N_of_ascii a <? 65)%N.

(** Characters that normalisation leaves in place: not white space, and
    not changed by [upper]. *)
Definition kept_char (a : ascii) : bool :=
  negb (Py.isspace a) && Ascii.eqb (Py.upper_char a) a.

(** ** Checks on a chapter table *)

(** An entry matches a code when either test of the loop succeeds. *)
Definition entry_matches (code : string) (e : string * (string * string)) : bool :=
  in_range code (fst (snd e)) (snd (snd e)) || prefix_hit code (fst (snd e)).

(** [x] cannot take a code that lies in the range of the later entry [y]:
    the range of [x] ends below the start of [y], and so does every string
    that starts with the two-character prefix of [x]. *)
Definition clear_of_range (x y : string * (string * string)) : bool :=
  let px := Py.slice_to 2 (fst (snd x)) in
  let sy := fst (snd y) in
  Py.lt (snd (snd x)) sy && Py.lt px sy && negb (String.prefix px sy).

(** [x] cannot take a code that starts with the prefix of the later entry
    [y]: the range of [x] ends below that prefix, and the two prefixes are
    incomparable. *)
Definition clear_of_prefix (x y : string * (string * string)) : bool :=
  let px := Py.slice_to 2 (fst (snd x)) in
  let py := Py.slice_to 2 (fst (snd y)) in
  Py.lt (snd (snd x)) py && negb (String.prefix px py) && negb (String.prefix py px).

(** [R] holds from every entry to every later one. *)
Fixpoint forward {A : Type} (R : A -> A -> bool) (l : list A) : bool :=
  match l with
  | [] => true
  | x :: l' => forallb (R x) l' && forward R l'
  end.

(** A string with no white space in front. *)
Definition trimmed_left (s : string) : Prop :=
  match s with
  | EmptyString => True
  | String a _ => Py.isspace a = false
  end.

(** What identifies a row of the session's frame in a result: its index
    label and its code. *)
Definition row_key (r : Pd.row) : nat * string := (Pd.label r, Pd.diagnosis r).

(** What a run of a query leaves behind: the store it started from, with
    every frame as it was, and a new object holding the result. *)
Definition leaves (h : gmap nat (list Pd.row)) (data : loc) (df res : list Pd.row)
    (out : loc) (h' : gmap nat (list Pd.row)) : Prop :=
  h ⊆ h' /\ h' !! data = Some df /\ h !! out = None /\ out <> data
  /\ h' !! out = Some res.

(** The count recorded for [k] in a tally, and the number of values
    counted. *)
Fixpoint count_of (k : string) (acc : list (string * nat)) : nat :=
  match acc with
  | [] => 0
  | (k', n) :: acc' => (if String.eqb k k' then n else 0) + count_of k acc'
  end.

Definition total (acc : list (string * nat)) : nat := list_sum (map snd acc).

(** Counts never increase along the list. *)
Definition descending (l : list (string * nat)) : Prop :=
  StronglySorted (fun a b => snd b <= snd a) l.

(** * Properties *)

(** ** The order on strings *)

Section StringOrder.

Implicit Types a b c p s : string.

Lemma ascii_compare_refl (x : ascii) : Ascii.compare x x = Eq.
Proof. unfold Ascii.compare. apply N.compare_refl. Qed.

Lemma ascii_compare_lt_trans (x y z : ascii) :
  Ascii.compare x y = Lt -> Ascii.compare y z = Lt -> Ascii.compare x z = Lt.
Proof.
  unfold Ascii.compare. rewrite !N.compare_lt_iff. lia.
Qed.

Lemma compare_refl s : String.compare s s = Eq.
Proof.
  induction s as [|x s IH]; simpl; [reflexivity|].
  now rewrite ascii_compare_refl.
Qed.

Lemma compare_lt_trans a : forall b c,
  String.compare a b = Lt -> String.compare b c = Lt -> String.compare a c = Lt.
Proof.
  induction a as [|x a IH]; intros [|y b] [|z c]; simpl; try congruence.
  destruct (Ascii.compare x y) eqn:Hxy; try discriminate;
    destruct (Ascii.compare y z) eqn:Hyz; try discriminate; intros H1 H2.
  - apply Ascii.compare_eq_iff in Hxy, Hyz. subst.
    rewrite ascii_compare_refl. eauto.
  - apply Ascii.compare_eq_iff in Hxy. subst. now rewrite Hyz.
  - apply Ascii.compare_eq_iff in Hyz. subst. now rewrite Hxy.
  - now rewrite (ascii_compare_lt_trans x y z).
Qed.

Lemma le_iff a b : Py.le a b = true <-> String.compare a b <> Gt.
Proof.
  unfold Py.le, String.leb. destruct (String.compare a b); split; congruence.
Qed.

Lemma le_cases a b :
  Py.le a b = true <-> a = b \/ String.compare a b = Lt.
Proof.
  rewrite le_iff. split.
  - destruct (String.compare a b) eqn:H; intros Hn.
    + left. now apply String.compare_eq_iff.
    + now right.
    + congruence.
  - intros [-> | H]; [rewrite compare_refl | rewrite H]; discriminate.
Qed.

Lemma lt_le_trans a b c :
  String.compare a b = Lt -> Py.le b c = true -> String.compare a c = Lt.
Proof.
  intros H1 H2. apply le_cases in H2 as [<- | H2]; eauto using compare_lt_trans.
Qed.

Lemma le_trans a b c :
  Py.le a b = true -> Py.le b c = true -> Py.le a c = true.
Proof.
  intros H1 H2. apply le_cases in H1 as [-> | H1]; [assumption|].
  apply le_cases. right. eauto using lt_le_trans.
Qed.

Lemma lt_not_le a b : String.compare a b = Lt -> Py.le b a = false.
Proof.
  intros H. unfold Py.le, String.leb.
  rewrite String.compare_antisym, H. reflexivity.
Qed.

(** A prefix of a string is below it. *)
Lemma prefix_le p : forall s, String.prefix p s = true -> Py.le p s = true.
Proof.
  induction p as [|x p IH]; intros [|y s]; simpl; intros H;
    try reflexivity; try discriminate.
  destruct (ascii_dec x y) as [->|]; [|discriminate].
  specialize (IH _ H). apply le_iff in IH. apply le_iff. simpl.
  now rewrite ascii_compare_refl.
Qed.

(** A string that starts with [p] stays below every string that [p] is
    below without being a prefix of it. *)
Lemma prefix_lt p : forall s c,
  String.compare p s = Lt -> String.prefix p s = false ->
  String.prefix p c = true -> String.compare c s = Lt.
Proof.
  induction p as [|x p IH]; intros [|y s] [|z c]; simpl; try congruence.
  destruct (ascii_dec x z) as [->|]; [|discriminate].
  destruct (ascii_dec z y) as [->|Hne].
  - rewrite ascii_compare_refl. eauto.
  - destruct (Ascii.compare z y) eqn:Hzy; try congruence.
    apply Ascii.compare_eq_iff in Hzy. contradiction.
Qed.

(** Two prefixes of one string: one is a prefix of the other. *)
Lemma prefix_both p : forall q c,
  String.prefix p c = true -> String.prefix q c = true ->
  String.prefix p q = true \/ String.prefix q p = true.
Proof.
  induction p as [|x p IH]; intros [|y q] [|z c]; simpl; auto; try discriminate.
  destruct (ascii_dec x z) as [->|]; [|discriminate].
  destruct (ascii_dec y z) as [->|]; [|discriminate].
  destruct (ascii_dec z z); [|contradiction]. eauto.
Qed.

End StringOrder.

(** ** The loop of [find_category] *)

Section Loop.

Implicit Types (code : string) (e x y : string * (string * string)).
Implicit Types tbl pre post : list (string * (string * string)).

Lemma ltb_lt (a b : string) : Py.lt a b = true -> String.compare a b = Lt.
Proof.
  unfold Py.lt, String.ltb. now destruct (String.compare a b).
Qed.

(** One step of the loop: the range test, then the prefix test, then the
    rest of the table. *)
Lemma find_category_loop_cons code category start end_ tbl :
  find_category_loop code ((category, (start, end_)) :: tbl) =
    if in_range code start end_ then category
    else if prefix_hit code start then category
    else find_category_loop code tbl.
Proof. reflexivity. Qed.

Lemma loop_miss code e tbl :
  entry_matches code e = false ->
  find_category_loop code (e :: tbl) = find_category_loop code tbl.
Proof.
  destruct e as [category [start end_]]. unfold entry_matches. simpl.
  intros H. apply orb_false_iff in H as [-> ->]. reflexivity.
Qed.

(** Entries that do not match are passed over. *)
Lemma loop_skip code pre tbl :
  Forall (fun e => entry_matches code e = false) pre ->
  find_category_loop code (pre ++ tbl) = find_category_loop code tbl.
Proof.
  induction 1 as [|e pre He _ IH]; simpl; [reflexivity|].
  change (find_category_loop code (e :: pre ++ tbl) = find_category_loop code tbl).
  now rewrite loop_miss.
Qed.

Lemma loop_unknown code tbl :
  Forall (fun e => entry_matches code e = false) tbl ->
  find_category_loop code tbl = "Unknown".
Proof.
  intros H. rewrite <- (app_nil_r tbl). now rewrite loop_skip.
Qed.

(** The result is a label of the table or the sentinel. *)
Lemma loop_result code tbl :
  find_category_loop code tbl = "Unknown" \/
  In (find_category_loop code tbl) (map fst tbl).
Proof.
  induction tbl as [|[category [start end_]] tbl IH]; [now left|].
  simpl. destruct (in_range code start end_); [right; now left|].
  destruct (prefix_hit code start); [right; now left|].
  destruct IH; auto.
Qed.

Lemma clear_of_range_miss code x y :
  clear_of_range x y = true ->
  in_range code (fst (snd y)) (snd (snd y)) = true ->
  entry_matches code x = false.
Proof.
  unfold clear_of_range, in_range, entry_matches, prefix_hit, Py.startswith.
  intros Hc Hy.
  apply andb_true_iff in Hc as [Hc Hnp]. apply andb_true_iff in Hc as [He Hp].
  apply andb_true_iff in Hy as [Hs _].
  apply ltb_lt in He, Hp. apply negb_true_iff in Hnp.
  apply orb_false_iff. split.
  - apply andb_false_iff. right. apply lt_not_le. eauto using lt_le_trans.
  - destruct (String.prefix _ code) eqn:Hpre; [|reflexivity].
    pose proof (prefix_lt _ _ _ Hp Hnp Hpre) as Hlt.
    apply lt_not_le in Hlt. congruence.
Qed.

Lemma clear_of_prefix_miss code x y :
  clear_of_prefix x y = true ->
  prefix_hit code (fst (snd y)) = true ->
  entry_matches code x = false.
Proof.
  unfold clear_of_prefix, in_range, entry_matches, prefix_hit, Py.startswith.
  intros Hc Hy.
  apply andb_true_iff in Hc as [Hc Hn2]. apply andb_true_iff in Hc as [He Hn1].
  apply ltb_lt in He. apply negb_true_iff in Hn1, Hn2.
  apply orb_false_iff. split.
  - apply andb_false_iff. right. apply lt_not_le.
    eapply lt_le_trans; [exact He|]. now apply prefix_le.
  - destruct (String.prefix (Py.slice_to 2 (fst (snd x))) code) eqn:Hpre;
      [|reflexivity].
    destruct (prefix_both _ _ _ Hpre Hy); congruence.
Qed.

(** On a table whose ranges are kept apart, a code in the range of an
    entry gets that entry's label. *)
Lemma loop_range tbl : forall code category start end_,
  forward clear_of_range tbl = true ->
  In (category, (start, end_)) tbl ->
  in_range code start end_ = true ->
  find_category_loop code tbl = category.
Proof.
  induction tbl as [|x tbl IH]; intros code category start end_ Hf Hin Hr;
    [destruct Hin|].
  simpl in Hf. apply andb_true_iff in Hf as [Hx Hf].
  destruct Hin as [-> | Hin].
  - simpl. now rewrite Hr.
  - rewrite loop_miss; [eauto|].
    rewrite forallb_forall in Hx.
    apply (clear_of_range_miss code x (category, (start, end_))); auto.
Qed.

(** On a table whose prefixes are kept apart, a code that starts with the
    prefix of an entry gets that entry's label. *)
Lemma loop_prefix tbl : forall code category start end_,
  forward clear_of_prefix tbl = true ->
  In (category, (start, end_)) tbl ->
  prefix_hit code start = true ->
  find_category_loop code tbl = category.
Proof.
  induction tbl as [|x tbl IH]; intros code category start end_ Hf Hin Hp;
    [destruct Hin|].
  simpl in Hf. apply andb_true_iff in Hf as [Hx Hf].
  destruct Hin as [-> | Hin].
  - simpl. rewrite Hp. now destruct (in_range code start end_).
  - rewrite loop_miss; [eauto|].
    rewrite forallb_forall in Hx.
    apply (clear_of_prefix_miss code x (category, (start, end_))); auto.
Qed.

Lemma icd11_ranges_clear_of_range : forward clear_of_range icd11_ranges = true.
Proof. vm_compute. reflexivity. Qed.

Lemma icd11_ranges_clear_of_prefix : forward clear_of_prefix icd11_ranges = true.
Proof. vm_compute. reflexivity. Qed.

End Loop.

(** ** Normalisation *)

Section Normalisation.

Ltac each_char a :=
  destruct a as [[] [] [] [] [] [] [] []]; reflexivity.

Lemma upper_char_idem (a : ascii) :
  Py.upper_char (Py.upper_char a) = Py.upper_char a.
Proof. each_char a. Qed.

Lemma isspace_upper_char (a : ascii) :
  Py.isspace (Py.upper_char a) = Py.isspace a.
Proof. each_char a. Qed.

Lemma upper_idem (s : string) : Py.upper (Py.upper s) = Py.upper s.
Proof.
  induction s as [|a s IH]; simpl; [reflexivity|].
  now rewrite upper_char_idem, IH.
Qed.

Lemma lstrip_upper (s : string) : Py.lstrip (Py.upper s) = Py.upper (Py.lstrip s).
Proof.
  induction s as [|a s IH]; simpl; [reflexivity|].
  rewrite isspace_upper_char. now destruct (Py.isspace a).
Qed.

Lemma rstrip_upper (s : string) : Py.rstrip (Py.upper s) = Py.upper (Py.rstrip s).
Proof.
  induction s as [|a s IH]; simpl; [reflexivity|].
  rewrite IH, isspace_upper_char.
  destruct (Py.rstrip s); simpl; [now destruct (Py.isspace a)|reflexivity].
Qed.

Lemma strip_upper (s : string) : Py.strip (Py.upper s) = Py.upper (Py.strip s).
Proof. unfold Py.strip. now rewrite lstrip_upper, rstrip_upper. Qed.

Lemma lstrip_trimmed (s : string) : trimmed_left (Py.lstrip s).
Proof.
  induction s as [|a s IH]; simpl; [exact I|].
  destruct (Py.isspace a) eqn:Ha; [assumption|exact Ha].
Qed.

Lemma lstrip_fixed (s : string) : trimmed_left s -> Py.lstrip s = s.
Proof. destruct s as [|a s]; simpl; [reflexivity|]. now intros ->. Qed.

Lemma rstrip_trimmed (s : string) : trimmed_left s -> trimmed_left (Py.rstrip s).
Proof.
  destruct s as [|a s]; simpl; [trivial|]. intros Ha.
  destruct (Py.rstrip s); [rewrite Ha|]; exact Ha.
Qed.

Lemma rstrip_idem (s : string) : Py.rstrip (Py.rstrip s) = Py.rstrip s.
Proof.
  induction s as [|a s IH]; simpl; [reflexivity|].
  destruct (Py.rstrip s) as [|b r] eqn:Hr.
  - destruct (Py.isspace a) eqn:Ha; simpl; [reflexivity|now rewrite Ha].
  - change (Py.rstrip (String a (String b r))) with
      (match Py.rstrip (String b r) with
       | EmptyString => if Py.isspace a then EmptyString else String a EmptyString
       | String _ _ as r' => String a r'
       end).
    now rewrite IH.
Qed.

Lemma strip_idem (s : string) : Py.strip (Py.strip s) = Py.strip s.
Proof.
  unfold Py.strip.
  rewrite (lstrip_fixed (Py.rstrip (Py.lstrip s))).
  - apply rstrip_idem.
  - apply rstrip_trimmed, lstrip_trimmed.
Qed.

(** Normalising a normalised string changes nothing. *)
Lemma normalize_idem (s : string) :
  normalize (Py.Str (normalize (Py.Str s))) = normalize (Py.Str s).
Proof.
  unfold normalize. simpl.
  now rewrite strip_upper, strip_idem, upper_idem.
Qed.

End Normalisation.

(** ** The classifier *)

Lemma slice_prefix (n : nat) : forall s, String.prefix (Py.slice_to n s) s = true.
Proof.
  unfold Py.slice_to.
  induction n as [|n IH]; intros [|a s]; simpl; try reflexivity.
  destruct (ascii_dec a a); [apply IH|contradiction].
Qed.

(** Equal two-character heads make the prefix test of the loop succeed. *)
Lemma same_head_prefix_hit (code start : string) :
  Py.slice_to 2 code = Py.slice_to 2 start -> prefix_hit code start = true.
Proof.
  intros H. unfold prefix_hit, Py.startswith. rewrite <- H. apply slice_prefix.
Qed.

(** C1. The table has 22 entries, and a code whose normalised form lies
    between the start and the end of an entry, both bounds included, is
    classified with that entry's label; so are the two bounds of the first
    chapter. *)
Theorem classify_in_range (c label start end_ : string) :
  In (label, (start, end_)) icd11_ranges ->
  Py.le start (normalize (Py.Str c)) = true ->
  Py.le (normalize (Py.Str c)) end_ = true ->
  classify c = label
  /\ length icd11_ranges = 22%nat
  /\ classify "1A00" = "1. Certain infectious or parasitic diseases"
  /\ classify "1H0Z" = "1. Certain infectious or parasitic diseases".
Proof.
  intros Hin Hs He. repeat split; try reflexivity.
  unfold classify, find_category.
  apply (loop_range icd11_ranges _ label start end_).
  - apply icd11_ranges_clear_of_range.
  - exact Hin.
  - unfold in_range. now rewrite Hs, He.
Qed.

Lemma classify_in_range_witness :
  In ("2. Neoplasms", ("2A00", "2F9Z")) icd11_ranges
  /\ Py.le "2A00" (normalize (Py.Str " 2f9z ")) = true
  /\ Py.le (normalize (Py.Str " 2f9z ")) "2F9Z" = true
  /\ classify " 2f9z " = "2. Neoplasms".
Proof.
  assert (Hin : In ("2. Neoplasms", ("2A00", "2F9Z")) icd11_ranges)
    by (right; left; reflexivity).
  split; [exact Hin|]. split; [reflexivity|]. split; [reflexivity|].
  exact (proj1 (classify_in_range " 2f9z " "2. Neoplasms" "2A00" "2F9Z"
                  Hin eq_refl eq_refl)).
Defined.

(** C2. The entries are tried in the order of the table, each with its
    range test and then its prefix test before the next entry is looked at.
    A code outside the range of an entry of the table whose first two
    characters are those of the entry's start code is classified with that
    entry's label; and in any table in which no earlier entry matches, the
    loop returns that label at this entry, whatever follows it. *)
Theorem classify_prefix_fallback (c label start end_ : string) :
  In (label, (start, end_)) icd11_ranges ->
  in_range (normalize (Py.Str c)) start end_ = false ->
  Py.slice_to 2 (normalize (Py.Str c)) = Py.slice_to 2 start ->
  classify c = label
  /\ (forall pre post,
        Forall (fun e => entry_matches (normalize (Py.Str c)) e = false) pre ->
        find_category_loop (normalize (Py.Str c))
          (pre ++ (label, (start, end_)) :: post) = label)
  /\ (forall category start' end' rest,
        find_category_loop (normalize (Py.Str c))
          ((category, (start', end')) :: rest) =
        if in_range (normalize (Py.Str c)) start' end' then category
        else if prefix_hit (normalize (Py.Str c)) start' then category
        else find_category_loop (normalize (Py.Str c)) rest).
Proof.
  intros Hin Hout Hhead. apply same_head_prefix_hit in Hhead.
  split; [|split].
  - unfold classify, find_category.
    apply (loop_prefix icd11_ranges _ label start end_);
      [apply icd11_ranges_clear_of_prefix | exact Hin | exact Hhead].
  - intros pre post Hpre. rewrite loop_skip by assumption.
    simpl. now rewrite Hout, Hhead.
  - intros. apply find_category_loop_cons.
Qed.

Lemma classify_prefix_fallback_witness :
  In ("2. Neoplasms", ("2A00", "2F9Z")) icd11_ranges
  /\ in_range (normalize (Py.Str "2a.1")) "2A00" "2F9Z" = false
  /\ Py.slice_to 2 (normalize (Py.Str "2a.1")) = Py.slice_to 2 "2A00"
  /\ classify "2a.1" = "2. Neoplasms".
Proof.
  assert (Hin : In ("2. Neoplasms", ("2A00", "2F9Z")) icd11_ranges)
    by (right; left; reflexivity).
  split; [exact Hin|]. split; [reflexivity|]. split; [reflexivity|].
  exact (proj1 (classify_prefix_fallback "2a.1" "2. Neoplasms" "2A00" "2F9Z"
                  Hin eq_refl eq_refl)).
Defined.

(** C3. [classify] is a total function of its string: its result is the
    sentinel or a label of the table, and it is the sentinel whenever no
    entry matches by range or by prefix, as for the empty string and for
    ["ZZZZ"]. *)
Theorem classify_unknown (c : string) :
  Forall (fun e => entry_matches (normalize (Py.Str c)) e = false) icd11_ranges ->
  classify c = "Unknown"
  /\ (forall c', classify c' = "Unknown" \/ In (classify c') (map fst icd11_ranges))
  /\ classify "" = "Unknown"
  /\ classify "ZZZZ" = "Unknown".
Proof.
  intros H. repeat split; try reflexivity.
  - unfold classify, find_category. now apply loop_unknown.
  - intros c'. apply loop_result.
Qed.

Lemma classify_unknown_witness :
  Forall (fun e => entry_matches (normalize (Py.Str "zz 9")) e = false) icd11_ranges
  /\ classify "zz 9" = "Unknown".
Proof.
  assert (H : Forall (fun e => entry_matches (normalize (Py.Str "zz 9")) e = false)
                icd11_ranges)
    by (unfold icd11_ranges; repeat (constructor; [reflexivity|]); constructor).
  split; [exact H | exact (proj1 (classify_unknown "zz 9" H))].
Defined.

(** ** Masks and selection *)

Section Frames.

Implicit Types (df data : list Pd.row) (r : Pd.row).

Lemma and_map {A : Type} (f g : A -> bool) (l : list A) :
  Pd.and_ (map f l) (map g l) = map (fun x => f x && g x) l.
Proof. induction l as [|x l IH]; simpl; [reflexivity|]. now rewrite IH. Qed.

Lemma select_map (f : Pd.row -> bool) df :
  Pd.select df (map f df) = List.filter f df.
Proof.
  induction df as [|r df IH]; simpl; [reflexivity|].
  rewrite IH. reflexivity.
Qed.

Lemma assign_map (f : string -> string) df :
  Pd.assign_ICD_Category df (Pd.apply f (Pd.column df)) =
  map (fun r => Pd.Row (Pd.label r) (Pd.diagnosis r) (f (Pd.diagnosis r))) df.
Proof.
  unfold Pd.apply, Pd.column.
  induction df as [|r df IH]; simpl; [reflexivity|]. now rewrite IH.
Qed.

Lemma filter_nothing {A : Type} (f : A -> bool) (l : list A) :
  (forall x, In x l -> f x = false) -> List.filter f l = [].
Proof.
  induction l as [|x l IH]; simpl; intros H; [reflexivity|].
  rewrite (H x) by now left. apply IH. intros y Hy. apply H. now right.
Qed.

Lemma filter_map_comm {A B : Type} (g : A -> B) (f : B -> bool) (l : list A) :
  List.filter f (map g l) = map g (List.filter (fun x => f (g x)) l).
Proof.
  induction l as [|x l IH]; simpl; [reflexivity|].
  rewrite IH. now destruct (f (g x)).
Qed.

Lemma filter_is_sublist {A : Type} (f : A -> bool) (l : list A) :
  sublist (List.filter f l) l.
Proof.
  induction l as [|x l IH]; simpl; [constructor|].
  destruct (f x); now constructor.
Qed.

(** The frame of the range search is the filter of the session's frame by
    the two comparisons. *)
Lemma filtered_filter data start end_ :
  filtered data start end_ =
  List.filter (fun r => in_range (Pd.diagnosis r) (Py.upper start) (Py.upper end_))
    data.
Proof.
  unfold filtered, Pd.ge, Pd.le, Pd.column, in_range.
  rewrite !map_map, and_map. apply select_map.
Qed.

(** The frame of the specific code search is the filter by the prefix test,
    with the category of every row computed anew. *)
Lemma filtered_sc_filter data sc :
  filtered_sc data sc =
  map (fun r => Pd.Row (Pd.label r) (Pd.diagnosis r) (classify (Pd.diagnosis r)))
    (List.filter (fun r => Py.startswith (Pd.diagnosis r) (Py.upper sc)) data).
Proof.
  unfold filtered_sc, Pd.str_startswith, Pd.column.
  rewrite map_map, select_map. apply assign_map.
Qed.

Lemma startswith_empty (s : string) : Py.startswith s "" = true.
Proof. now destruct s. Qed.

Lemma filter_everything {A : Type} (f : A -> bool) (l : list A) :
  (forall x, f x = true) -> List.filter f l = l.
Proof.
  intros H. induction l as [|x l IH]; simpl; [reflexivity|].
  now rewrite H, IH.
Qed.

End Frames.

(** C5. The range search uppercases its two bounds and returns exactly the
    rows whose code lies between them, bounds included, in the order on
    strings: the result is that filter of the collection, its codes depend
    on the code column alone, and a row whose chapter is ["Unknown"] is
    returned when its code lies between the bounds. *)
Theorem rangeSearch_exact (data : list Pd.row) (start end_ : string) :
  rangeSearch data start end_ =
    List.filter (fun r => Py.le (Py.upper start) (Pd.diagnosis r)
                          && Py.le (Pd.diagnosis r) (Py.upper end_)) data
  /\ (forall r, In r (rangeSearch data start end_) <->
        In r data
        /\ Py.le (Py.upper start) (Pd.diagnosis r) = true
        /\ Py.le (Pd.diagnosis r) (Py.upper end_) = true)
  /\ Pd.column (rangeSearch data start end_) =
       List.filter (fun v => Py.le (Py.upper start) v && Py.le v (Py.upper end_))
         (Pd.column data)
  /\ rangeSearch [Pd.Row 0 "1A00" (classify "1A00"); Pd.Row 1 "ZZZZ" (classify "ZZZZ")]
       "zz" "zzzzz" = [Pd.Row 1 "ZZZZ" "Unknown"].
Proof.
  unfold rangeSearch. rewrite filtered_filter. unfold in_range.
  split; [reflexivity|]. split; [|split; [|reflexivity]].
  - intros r. rewrite filter_In, andb_true_iff. reflexivity.
  - unfold Pd.column. now rewrite filter_map_comm.
Qed.

(** C6. When the start bound is above the end bound after uppercasing, the
    range search returns the empty frame: the bounds are not exchanged.
    On the example collection the bounds ["2F00"] and ["2A00"] give nothing,
    while ["2A00"] and ["2F00"] give two rows. *)
Theorem rangeSearch_reversed_bounds (data : list Pd.row) (start end_ : string) :
  Py.lt (Py.upper end_) (Py.upper start) = true ->
  rangeSearch data start end_ = []
  /\ rangeSearch example_collection "2F00" "2A00" = []
  /\ length (rangeSearch example_collection "2A00" "2F00") = 2%nat.
Proof.
  intros Hlt. split; [|split; reflexivity].
  unfold rangeSearch. rewrite filtered_filter.
  apply filter_nothing. intros r _. unfold in_range.
  destruct (Py.le (Py.upper start) (Pd.diagnosis r)) eqn:H1; [|reflexivity].
  destruct (Py.le (Pd.diagnosis r) (Py.upper end_)) eqn:H2; [|reflexivity].
  pose proof (le_trans _ _ _ H1 H2) as H.
  apply ltb_lt, lt_not_le in Hlt. congruence.
Qed.

Lemma rangeSearch_reversed_bounds_witness :
  Py.lt (Py.upper "2a00") (Py.upper "2f00") = true
  /\ rangeSearch example_collection "2f00" "2a00" = [].
Proof.
  split; [reflexivity|].
  exact (proj1 (rangeSearch_reversed_bounds example_collection "2f00" "2a00" eq_refl)).
Defined.

(** C7. The specific code search uppercases the prefix and returns exactly
    the rows whose code starts with it, every one with its chapter computed
    by [classify] from its code at the time of the query, whatever chapter
    the stored row carries; the empty prefix keeps every row. *)
Theorem prefixSearch_exact (data : list Pd.row) (prefix : string) :
  prefixSearch data prefix =
    map (fun r => Pd.Row (Pd.label r) (Pd.diagnosis r) (classify (Pd.diagnosis r)))
      (List.filter (fun r => Py.startswith (Pd.diagnosis r) (Py.upper prefix)) data)
  /\ Pd.column (prefixSearch data prefix) =
       List.filter (fun v => Py.startswith v (Py.upper prefix)) (Pd.column data)
  /\ (forall r, In r (prefixSearch data prefix) ->
        Pd.ICD_Category r = classify (Pd.diagnosis r))
  /\ Pd.column (prefixSearch data "") = Pd.column data
  /\ prefixSearch [Pd.Row 0 "2A20" "stale"; Pd.Row 1 "1A00" "stale"] "2a" =
       [Pd.Row 0 "2A20" "2. Neoplasms"].
Proof.
  unfold prefixSearch. rewrite !filtered_sc_filter.
  split; [reflexivity|]. split; [|split; [|split; [|reflexivity]]].
  - unfold Pd.column. rewrite map_map. simpl. now rewrite filter_map_comm.
  - intros r Hr. apply in_map_iff in Hr as [r0 [<- _]]. reflexivity.
  - unfold Pd.column. rewrite map_map. simpl.
    rewrite filter_everything; [reflexivity|].
    intros r. apply startswith_empty.
Qed.

(** ** The store *)

Section Store.

Implicit Types (h : gmap nat (list Pd.row)) (df : list Pd.row) (l data : loc).

Lemma fresh_unused h : h !! fresh (dom h) = None.
Proof. apply not_elem_of_dom, is_fresh. Qed.

(** The handler of the range search allocates one frame, the filter of the
    session's frame, and touches nothing else. *)
Lemma run_range_search_spec h data df start end_ :
  h !! data = Some df ->
  exists out,
    run_range_search data start end_ h =
      Some (out, <[out := rangeSearch df start end_]> h)
    /\ h !! out = None.
Proof.
  intros Hd. exists (fresh (dom h)). split; [|apply fresh_unused].
  unfold run_range_search, getitem, deref, alloc, mbind, M_bind, bind.
  rewrite Hd. cbn beta iota. rewrite Hd. reflexivity.
Qed.

(** The handler of the specific code search allocates the selection and
    its copy, and assigns the category column of the copy only. *)
Lemma run_specific_code_search_spec h data df sc :
  h !! data = Some df ->
  exists sel out,
    run_specific_code_search data sc h =
      Some (out,
            <[out := prefixSearch df sc]>
              (<[sel := Pd.select df
                          (Pd.str_startswith (Pd.column df) (Py.upper sc))]> h))
    /\ h !! sel = None /\ h !! out = None /\ sel <> out.
Proof.
  intros Hd.
  set (sdf := Pd.select df (Pd.str_startswith (Pd.column df) (Py.upper sc))).
  set (sel := fresh (dom h)).
  set (h1 := <[sel := sdf]> h).
  set (out := fresh (dom h1)).
  assert (Hsel : h !! sel = None) by apply fresh_unused.
  assert (Hout1 : h1 !! out = None) by apply fresh_unused.
  assert (Hne : sel <> out).
  { intros E. rewrite <- E in Hout1. unfold h1 in Hout1.
    rewrite lookup_insert_eq in Hout1. discriminate. }
  assert (Hout : h !! out = None).
  { unfold h1 in Hout1. now rewrite lookup_insert_ne in Hout1. }
  exists sel, out. repeat split; try assumption.
  unfold run_specific_code_search, getitem, copy, setitem_ICD_Category,
    update, deref, alloc, mbind, M_bind, bind, ret.
  rewrite Hd. cbn beta iota. rewrite Hd. cbn beta iota zeta.
  repeat (rewrite lookup_insert_eq; cbn beta iota).
  rewrite insert_insert_eq. reflexivity.
Qed.

End Store.

Section ReadOnly.

Implicit Types (h : gmap nat (list Pd.row)) (df : list Pd.row) (l data : loc).

Lemma sublist_map {A B : Type} (f : A -> B) (l1 l2 : list A) :
  sublist l1 l2 -> sublist (map f l1) (map f l2).
Proof. induction 1; simpl; now constructor. Qed.

Lemma prefixSearch_keys df sc :
  sublist (map row_key (prefixSearch df sc)) (map row_key df).
Proof.
  unfold prefixSearch. rewrite filtered_sc_filter, map_map. simpl.
  apply (sublist_map row_key), filter_is_sublist.
Qed.

Lemma rangeSearch_sublist df start end_ : sublist (rangeSearch df start end_) df.
Proof. unfold rangeSearch. rewrite filtered_filter. apply filter_is_sublist. Qed.

Lemma range_search_leaves h data df start end_ :
  h !! data = Some df ->
  exists out h',
    run_range_search data start end_ h = Some (out, h')
    /\ leaves h data df (rangeSearch df start end_) out h'.
Proof.
  intros Hd.
  destruct (run_range_search_spec h data df start end_ Hd) as [out [Hrun Hout]].
  exists out, (<[out := rangeSearch df start end_]> h).
  assert (out <> data) by congruence.
  repeat split; auto.
  - now apply insert_subseteq.
  - now rewrite lookup_insert_ne.
  - apply lookup_insert_eq.
Qed.

Lemma specific_code_search_leaves h data df sc :
  h !! data = Some df ->
  exists out h',
    run_specific_code_search data sc h = Some (out, h')
    /\ leaves h data df (prefixSearch df sc) out h'.
Proof.
  intros Hd.
  destruct (run_specific_code_search_spec h data df sc Hd)
    as [sel [out [Hrun [Hsel [Hout Hne]]]]].
  eexists out, _. split; [exact Hrun|].
  assert (out <> data) by congruence.
  assert (sel <> data) by congruence.
  repeat split; auto.
  - etransitivity; [apply (insert_subseteq h sel); exact Hsel|].
    apply insert_subseteq. now rewrite lookup_insert_ne.
  - now rewrite !lookup_insert_ne.
  - apply lookup_insert_eq.
Qed.

End ReadOnly.

(** C9. Neither query changes the session's frame: after the run of either
    handler every object of the store is as it was, the frame behind the
    session's reference included, and the result is a new object.  The
    result keeps the collection's order (it is a subsequence of it; for the
    specific code search, on index labels and codes).  A second run of the
    same query on the store left by the first returns a frame equal to the
    first result, and leaves the first result and the session's frame as
    they were. *)
Theorem queries_read_only (h : gmap nat (list Pd.row)) (data : loc)
    (df : list Pd.row) (start end_ sc : string) :
  h !! data = Some df ->
  (exists out h',
      run_range_search data start end_ h = Some (out, h')
      /\ h ⊆ h' /\ h' !! data = Some df /\ out <> data
      /\ h' !! out = Some (rangeSearch df start end_)
      /\ sublist (rangeSearch df start end_) df
      /\ exists out2 h2,
           run_range_search data start end_ h' = Some (out2, h2)
           /\ h2 !! out2 = h' !! out /\ h2 !! out = h' !! out
           /\ h2 !! data = Some df)
  /\ (exists out h',
      run_specific_code_search data sc h = Some (out, h')
      /\ h ⊆ h' /\ h' !! data = Some df /\ out <> data
      /\ h' !! out = Some (prefixSearch df sc)
      /\ sublist (map row_key (prefixSearch df sc)) (map row_key df)
      /\ exists out2 h2,
           run_specific_code_search data sc h' = Some (out2, h2)
           /\ h2 !! out2 = h' !! out /\ h2 !! out = h' !! out
           /\ h2 !! data = Some df).
Proof.
  intros Hd. split.
  - destruct (range_search_leaves h data df start end_ Hd)
      as [out [h' [Hrun [Hsub [Hd' [_ [Hne Hres]]]]]]].
    exists out, h'. repeat split; auto using rangeSearch_sublist.
    destruct (range_search_leaves h' data df start end_ Hd')
      as [out2 [h2 [Hrun2 [Hsub2 [Hd2 [_ [_ Hres2]]]]]]].
    exists out2, h2. repeat split; auto; [congruence|].
    rewrite Hres. eapply lookup_weaken; eauto.
  - destruct (specific_code_search_leaves h data df sc Hd)
      as [out [h' [Hrun [Hsub [Hd' [_ [Hne Hres]]]]]]].
    exists out, h'. repeat split; auto using prefixSearch_keys.
    destruct (specific_code_search_leaves h' data df sc Hd')
      as [out2 [h2 [Hrun2 [Hsub2 [Hd2 [_ [_ Hres2]]]]]]].
    exists out2, h2. repeat split; auto; [congruence|].
    rewrite Hres. eapply lookup_weaken; eauto.
Qed.

Lemma queries_read_only_witness :
  ({[ 0%nat := example_collection ]} : gmap nat (list Pd.row)) !! 0%nat
    = Some example_collection
  /\ exists out h',
       run_specific_code_search 0%nat "2a" {[ 0%nat := example_collection ]}
         = Some (out, h')
       /\ h' !! 0%nat = Some example_collection
       /\ h' !! out = Some (prefixSearch example_collection "2a").
Proof.
  assert (Hd : ({[ 0%nat := example_collection ]} : gmap nat (list Pd.row)) !! 0%nat
                 = Some example_collection) by apply lookup_singleton_eq.
  split; [exact Hd|].
  destruct (proj2 (queries_read_only _ 0%nat example_collection "2a00" "2f9z" "2a" Hd))
    as [out [h' [Hrun [_ [Hd' [_ [Hres _]]]]]]].
  exists out, h'. repeat split; assumption.
Defined.

(** ** The summary *)

Section Tally.

Implicit Types (k : string) (acc : list (string * nat)) (series : list string).

Lemma bump_total k acc : total (Pd.bump k acc) = S (total acc).
Proof.
  unfold total. induction acc as [|[k' n] acc IH]; simpl; [reflexivity|].
  destruct (String.eqb k k'); simpl; [reflexivity|]. rewrite IH. lia.
Qed.

Lemma bump_count k k' acc :
  count_of k' (Pd.bump k acc) =
  count_of k' acc + (if String.eqb k' k then 1 else 0).
Proof.
  induction acc as [|[k0 n] acc IH]; simpl.
  - destruct (String.eqb k' k); lia.
  - destruct (String.eqb_spec k k0) as [->|Hne]; simpl.
    + destruct (String.eqb k' k0); lia.
    + rewrite IH. lia.
Qed.

Lemma bump_keys k acc :
  map fst (Pd.bump k acc) =
  if existsb (String.eqb k) (map fst acc) then map fst acc else (map fst acc ++ [k])%list.
Proof.
  induction acc as [|[k0 n] acc IH]; simpl; [reflexivity|].
  destruct (String.eqb k k0); simpl; [reflexivity|].
  rewrite IH. now destruct (existsb (String.eqb k) (map fst acc)).
Qed.

Lemma existsb_eqb_In k (l : list string) :
  existsb (String.eqb k) l = true <-> In k l.
Proof.
  rewrite existsb_exists. split.
  - intros [x [Hx He]]. apply String.eqb_eq in He. now subst.
  - intros H. exists k. split; [assumption|apply String.eqb_refl].
Qed.

Lemma bump_NoDup k acc : List.NoDup (map fst acc) -> List.NoDup (map fst (Pd.bump k acc)).
Proof.
  intros H. rewrite bump_keys.
  destruct (existsb (String.eqb k) (map fst acc)) eqn:E; [assumption|].
  apply List.NoDup_app; [assumption | repeat constructor; intros [] |].
  intros x Hx [<-|[]]. apply existsb_eqb_In in Hx. congruence.
Qed.

Lemma bump_positive k acc :
  Forall (fun e => 0 < snd e) acc -> Forall (fun e => 0 < snd e) (Pd.bump k acc).
Proof.
  induction 1 as [|[k0 n] acc Hn Hacc IH]; simpl.
  - repeat constructor.
  - destruct (String.eqb k k0); constructor; simpl in *; auto; lia.
Qed.

(** The counting pass, from any tally built so far. *)
Lemma fold_bump series : forall acc,
  let out := fold_left (fun a k => Pd.bump k a) series acc in
  total out = length series + total acc
  /\ (forall k, count_of k out = count_occ string_dec series k + count_of k acc)
  /\ (List.NoDup (map fst acc) -> List.NoDup (map fst out))
  /\ (Forall (fun e => 0 < snd e) acc -> Forall (fun e => 0 < snd e) out).
Proof.
  induction series as [|k0 series IH]; intros acc; simpl.
  - repeat split; auto.
  - destruct (IH (Pd.bump k0 acc)) as [Ht [Hc [Hn Hp]]].
    repeat split.
    + rewrite Ht, bump_total. lia.
    + intros k. rewrite Hc, bump_count.
      destruct (string_dec k0 k) as [->|Hne].
      * rewrite String.eqb_refl. lia.
      * destruct (String.eqb_spec k k0); [congruence|lia].
    + intros H. now apply Hn, bump_NoDup.
    + intros H. now apply Hp, bump_positive.
Qed.

Lemma count_of_NoDup k n acc :
  List.NoDup (map fst acc) -> In (k, n) acc -> count_of k acc = n.
Proof.
  induction acc as [|[k0 n0] acc IH]; simpl; intros Hnd Hin; [destruct Hin|].
  inversion Hnd as [|? ? Hnotin Hnd']; subst.
  destruct Hin as [E|Hin].
  - inversion E; subst. rewrite String.eqb_refl.
    assert (count_of k acc = 0) as ->; [|lia].
    clear -Hnotin. induction acc as [|[k1 n1] acc IH]; simpl; [reflexivity|].
    simpl in Hnotin. destruct (String.eqb_spec k k1) as [->|_].
    + exfalso. apply Hnotin. now left.
    + apply IH. intros H. apply Hnotin. now right.
  - destruct (String.eqb_spec k k0) as [->|_].
    + exfalso. apply Hnotin. apply in_map_iff. now exists (k0, n).
    + simpl. now apply IH.
Qed.

Lemma count_of_absent k acc : ~ In k (map fst acc) -> count_of k acc = 0.
Proof.
  induction acc as [|[k0 n0] acc IH]; simpl; intros H; [reflexivity|].
  destruct (String.eqb_spec k k0) as [->|_].
  - exfalso. apply H. now left.
  - apply IH. intros Hin. apply H. now right.
Qed.

(** The tally has one entry per distinct value, with the number of its
    occurrences, and the counts add up to the length of the series. *)
Lemma tally_spec series :
  total (Pd.tally series) = length series
  /\ List.NoDup (map fst (Pd.tally series))
  /\ (forall k n, In (k, n) (Pd.tally series) <->
        n = count_occ string_dec series k /\ In k series).
Proof.
  destruct (fold_bump series []) as [Ht [Hc [Hn Hp]]]. fold (Pd.tally series) in *.
  specialize (Hn (List.NoDup_nil _)). specialize (Hp (List.Forall_nil _)).
  split; [unfold total in *; simpl in Ht; lia|]. split; [exact Hn|].
  intros k n. split.
  - intros Hin. pose proof (count_of_NoDup k n _ Hn Hin) as E.
    rewrite Hc in E. simpl in E. split; [lia|].
    rewrite List.Forall_forall in Hp. specialize (Hp _ Hin). simpl in Hp.
    apply (count_occ_In string_dec). lia.
  - intros [-> Hin]. apply (count_occ_In string_dec) in Hin.
    destruct (in_dec string_dec k (map fst (Pd.tally series))) as [Hk|Hk].
    + apply in_map_iff in Hk as [[k' n] [E Hk]]. simpl in E. subst k'.
      pose proof (count_of_NoDup k n _ Hn Hk) as E.
      rewrite Hc in E. simpl in E. replace (count_occ string_dec series k) with n by lia.
      exact Hk.
    + apply count_of_absent in Hk. rewrite Hc in Hk. simpl in Hk. lia.
Qed.

End Tally.

Section Summary.

Variable sort_values : list (string * nat) -> list (string * nat).
Hypothesis sort_values_perm : forall l, Permutation (sort_values l) l.
Hypothesis sort_values_descending : forall l, descending (sort_values l).

Lemma total_perm (l l' : list (string * nat)) :
  Permutation l l' -> total l = total l'.
Proof.
  unfold total. induction 1; simpl; lia.
Qed.

(** X14. With any sort by descending count, the summary has one entry per
    distinct chapter of the collection, each with the number of rows that
    carry it; the counts add up to the number of rows and never increase
    along the summary.  The order between equal counts is the sort's. *)
Lemma summary_spec (data : list Pd.row) :
  total (summary sort_values data) = length data
  /\ List.NoDup (map fst (summary sort_values data))
  /\ (forall k n, In (k, n) (summary sort_values data) <->
        n = count_occ string_dec (Pd.categories data) k
        /\ In k (Pd.categories data))
  /\ descending (summary sort_values data).
Proof.
  unfold summary, Pd.value_counts.
  destruct (tally_spec (Pd.categories data)) as [Ht [Hn Hc]].
  pose proof (sort_values_perm (Pd.tally (Pd.categories data))) as Hp.
  split; [|split; [|split]].
  - rewrite (total_perm _ _ Hp), Ht. unfold Pd.categories. apply length_map.
  - apply (Permutation_NoDup (l := map fst (Pd.tally (Pd.categories data))));
      [|exact Hn].
    apply Permutation_map. now symmetry.
  - intros k n. rewrite <- Hc. split; apply Permutation_in; [exact Hp|].
    now symmetry.
  - apply sort_values_descending.
Qed.

End Summary.

Section SortDesc.

Implicit Types (e : string * nat) (l : list (string * nat)).

Lemma insert_desc_perm e l : Permutation (Pd.insert_desc e l) (e :: l).
Proof.
  induction l as [|x l IH]; simpl; [reflexivity|].
  destruct (snd x <? snd e)%nat; [reflexivity|].
  rewrite IH. apply perm_swap.
Qed.

Lemma insert_desc_descending e l :
  descending l -> descending (Pd.insert_desc e l).
Proof.
  unfold descending. induction 1 as [|x l Hl IH Hx]; simpl.
  - repeat constructor.
  - destruct (Nat.ltb_spec (snd x) (snd e)) as [Hlt|Hge].
    + constructor; [now constructor|].
      constructor; [lia|].
      rewrite List.Forall_forall in Hx |- *. intros y Hy.
      specialize (Hx y Hy). lia.
    + constructor; [assumption|].
      rewrite List.Forall_forall in Hx |- *. intros y Hy.
      apply (Permutation_in _ (insert_desc_perm e l)) in Hy.
      destruct Hy as [<-|Hy]; [lia|auto].
Qed.

Lemma fold_insert_desc l : forall acc,
  descending acc ->
  let out := fold_left (fun a e => Pd.insert_desc e a) l acc in
  Permutation out (l ++ acc) /\ descending out.
Proof.
  induction l as [|e l IH]; intros acc Hacc; simpl; [split; auto|].
  destruct (IH (Pd.insert_desc e acc) (insert_desc_descending e acc Hacc))
    as [Hp Hd].
  split; [|exact Hd].
  rewrite Hp, insert_desc_perm. symmetry. apply Permutation_middle.
Qed.

Lemma sort_desc_perm l : Permutation (Pd.sort_desc l) l.
Proof.
  destruct (fold_insert_desc l [] (SSorted_nil _)) as [Hp _].
  unfold Pd.sort_desc. now rewrite Hp, app_nil_r.
Qed.

Lemma sort_desc_descending l : descending (Pd.sort_desc l).
Proof. now destruct (fold_insert_desc l [] (SSorted_nil _)) as [_ Hd]. Qed.

(** The summary of the example collection, with the sort that keeps equal
    counts in their order. *)
Example summary_example :
  summary Pd.sort_desc example_collection =
  [ ("2. Neoplasms", 2);
    ("1. Certain infectious or parasitic diseases", 1);
    ("Unknown", 1) ].
Proof. reflexivity. Qed.

End SortDesc.


(** ** Which codes a chapter takes *)

Section Chapters.

Implicit Types (code : string) (e : string * (string * string)).
Implicit Types tbl pre post : list (string * (string * string)).

(** The loop returns the sentinel when nothing matches, and otherwise the
    label of the first entry that matches. *)
Lemma loop_first_match code tbl :
  (Forall (fun e => entry_matches code e = false) tbl
   /\ find_category_loop code tbl = "Unknown")
  \/ (exists e, In e tbl /\ entry_matches code e = true
                /\ find_category_loop code tbl = fst e).
Proof.
  induction tbl as [|e tbl IH]; [left; split; [constructor|reflexivity]|].
  destruct (entry_matches code e) eqn:He.
  - right. exists e. split; [now left|]. split; [exact He|].
    destruct e as [category [start end_]]. unfold entry_matches in He.
    simpl in *. destruct (in_range code start end_); [reflexivity|].
    simpl in He. now rewrite He.
  - rewrite loop_miss by exact He.
    destruct IH as [[Hall Hu]|[e' [Hin [Hm Hr]]]].
    + left. split; [now constructor|exact Hu].
    + right. exists e'. split; [now right|]. now split.
Qed.

Lemma icd11_labels_distinct : List.NoDup (map fst icd11_ranges).
Proof.
  unfold icd11_ranges. simpl.
  repeat (apply List.NoDup_cons;
          [simpl; intros H; repeat (destruct H as [H|H]; [discriminate H|]);
           exact H|]).
  apply List.NoDup_nil.
Qed.

Lemma icd11_labels_not_unknown : ~ In "Unknown" (map fst icd11_ranges).
Proof.
  unfold icd11_ranges. simpl. intros H.
  repeat (destruct H as [H|H]; [discriminate H|]). exact H.
Qed.

Lemma same_label_same_entry {A B : Type} (l : list (A * B)) (x y : A * B) :
  List.NoDup (map fst l) -> In x l -> In y l -> fst x = fst y -> x = y.
Proof.
  induction l as [|z l IH]; simpl; intros Hnd Hx Hy E; [destruct Hx|].
  inversion Hnd as [|? ? Hz Hnd']; subst.
  destruct Hx as [->|Hx], Hy as [->|Hy]; auto.
  - exfalso. apply Hz. rewrite E. now apply in_map.
  - exfalso. apply Hz. rewrite <- E. now apply in_map.
Qed.

(** On the table, a code gets the label of an entry exactly when that
    entry matches it. *)
Lemma loop_label_iff code category start end_ :
  In (category, (start, end_)) icd11_ranges ->
  find_category_loop code icd11_ranges = category <->
  entry_matches code (category, (start, end_)) = true.
Proof.
  intros Hin. split.
  - intros Hr. destruct (loop_first_match code icd11_ranges)
      as [[_ Hu]|[e [He [Hm Hl]]]].
    + exfalso. apply icd11_labels_not_unknown. rewrite <- Hu, Hr.
      now apply (in_map fst _ (category, (start, end_))).
    + assert (e = (category, (start, end_))) as <-; [|exact Hm].
      apply (same_label_same_entry icd11_ranges);
        auto using icd11_labels_distinct.
      simpl. congruence.
  - unfold entry_matches. cbn [fst snd]. intros Hm.
    apply orb_true_iff in Hm as [Hm|Hm].
    + apply (loop_range icd11_ranges code category start end_);
        [apply icd11_ranges_clear_of_range | exact Hin | exact Hm].
    + apply (loop_prefix icd11_ranges code category start end_);
        [apply icd11_ranges_clear_of_prefix | exact Hin | exact Hm].
Qed.

Lemma loop_unknown_iff code :
  find_category_loop code icd11_ranges = "Unknown" <->
  Forall (fun e => entry_matches code e = false) icd11_ranges.
Proof.
  split; [|apply loop_unknown].
  intros Hr. destruct (loop_first_match code icd11_ranges)
    as [[Hall _]|[e [He [_ Hl]]]]; [exact Hall|].
  exfalso. apply icd11_labels_not_unknown. rewrite <- Hr, Hl.
  now apply in_map.
Qed.

Lemma le_cons (a b : ascii) (s t : string) :
  Py.le (String a s) (String b t) = true <->
  Ascii.compare a b = Lt \/ (a = b /\ Py.le s t = true).
Proof.
  unfold Py.le, String.leb.
  change (String.compare (String a s) (String b t)) with
    (match Ascii.compare a b with
     | Eq => String.compare s t
     | ne => ne
     end).
  destruct (Ascii.compare a b) eqn:Hab.
  - apply Ascii.compare_eq_iff in Hab. subst. split; [now right|].
    intros [H|[_ H]]; [discriminate H|exact H].
  - split; [now left|reflexivity].
  - split; [discriminate|]. intros [H|[-> _]]; [discriminate H|].
    rewrite ascii_compare_refl in Hab. discriminate Hab.
Qed.

(** A code between two strings that begin with [x], the lower of which goes
    on with ["A"], begins with [x] and goes on with a character from ["A"]
    upwards. *)
Lemma range_shape (x : ascii) (s2 e1 : string) code :
  in_range code (String x (String "A" s2)) (String x e1) = true ->
  exists y rest, code = String x (String y rest) /\ (65 <= N_of_ascii y)%N.
Proof.
  unfold in_range. intros H. apply andb_true_iff in H as [H1 H2].
  destruct code as [|z code]; [discriminate H1|].
  apply le_cons in H1, H2.
  assert (z = x) as ->.
  { destruct H1 as [H1|[-> _]]; [|reflexivity].
    destruct H2 as [H2|[-> _]]; [|reflexivity].
    rewrite Ascii.compare_antisym, H1 in H2. discriminate H2. }
  destruct H1 as [H1|[_ H1]]; [rewrite ascii_compare_refl in H1; discriminate|].
  destruct code as [|y rest]; [discriminate H1|].
  exists y, rest. split; [reflexivity|].
  apply le_cons in H1 as [H1|[<- _]]; [|vm_compute; discriminate].
  unfold Ascii.compare in H1. rewrite N.compare_lt_iff in H1.
  change (N_of_ascii "A") with 65%N in H1. lia.
Qed.

Lemma prefix_cons (a b : ascii) (p s : string) :
  String.prefix (String a p) (String b s) = true <->
  a = b /\ String.prefix p s = true.
Proof.
  change (String.prefix (String a p) (String b s)) with
    (if ascii_dec a b then String.prefix p s else false).
  destruct (ascii_dec a b) as [->|Hne]; split; try tauto; try discriminate.
Qed.

Lemma slice2_cons (x y : ascii) (s : string) :
  Py.slice_to 2 (String x (String y s)) = String x (String y EmptyString).
Proof. now destruct s. Qed.

Lemma prefix_shape (x : ascii) (s2 : string) code :
  prefix_hit code (String x (String "A" s2)) = true ->
  exists y rest, code = String x (String y rest) /\ (65 <= N_of_ascii y)%N.
Proof.
  unfold prefix_hit, Py.startswith. rewrite slice2_cons.
  destruct code as [|z code]; [discriminate|].
  intros H. apply prefix_cons in H as [<- H].
  destruct code as [|y rest]; [discriminate H|].
  apply prefix_cons in H as [<- _].
  exists "A"%char, rest. split; [reflexivity|]. vm_compute. discriminate.
Qed.

(** Every entry of the table takes only codes of two characters or more
    that begin with the first character of its start code and go on with a
    character from ["A"] upwards. *)
Lemma match_shape code e :
  In e icd11_ranges -> entry_matches code e = true ->
  exists x y rest,
    code = String x (String y rest)
    /\ Py.slice_to 1 (fst (snd e)) = String x EmptyString
    /\ (65 <= N_of_ascii y)%N.
Proof.
  unfold icd11_ranges, entry_matches. intros Hin Hm.
  apply orb_true_iff in Hm.
  repeat (destruct Hin as [<-|Hin];
    [simpl in Hm; destruct Hm as [Hm|Hm];
     [apply range_shape in Hm|apply prefix_shape in Hm];
     destruct Hm as [y [rest [-> Hy]]]; eexists _, y, rest;
     (split; [reflexivity|split; [reflexivity|exact Hy]])|]).
  destruct Hin.
Qed.

End Chapters.

Section Digits.

Lemma upper_char_below_A (a : ascii) : below_A a = true -> Py.upper_char a = a.
Proof. destruct a as [[] [] [] [] [] [] [] []]; try reflexivity; discriminate. Qed.

Lemma upper_below_A (s : string) :
  Py.all_chars below_A s = true -> Py.upper s = s.
Proof.
  induction s as [|a s IH]; simpl; [reflexivity|].
  intros H. apply andb_true_iff in H as [Ha Hs].
  now rewrite upper_char_below_A, IH.
Qed.

Lemma lstrip_all_chars (p : ascii -> bool) (s : string) :
  Py.all_chars p s = true -> Py.all_chars p (Py.lstrip s) = true.
Proof.
  induction s as [|a s IH]; simpl; [reflexivity|].
  intros H. destruct (Py.isspace a); [|exact H].
  apply andb_true_iff in H as [_ Hs]. auto.
Qed.

Lemma rstrip_all_chars (p : ascii -> bool) (s : string) :
  Py.all_chars p s = true -> Py.all_chars p (Py.rstrip s) = true.
Proof.
  induction s as [|a s IH]; simpl; [reflexivity|].
  intros H. apply andb_true_iff in H as [Ha Hs]. specialize (IH Hs).
  destruct (Py.rstrip s); [destruct (Py.isspace a)|]; simpl; auto.
  - now rewrite Ha.
  - rewrite Ha. exact IH.
Qed.

Lemma uint_below_A (d : Decimal.uint) :
  Py.all_chars below_A (NilEmpty.string_of_uint d) = true.
Proof. induction d; simpl; auto. Qed.

Lemma nilzero_below_A (d : Decimal.uint) :
  Py.all_chars below_A (NilZero.string_of_uint d) = true.
Proof. destruct d; try reflexivity; apply uint_below_A. Qed.

Lemma int_below_A (z : Z) : Py.all_chars below_A (Py.str (Py.Int z)) = true.
Proof.
  unfold Py.str, NilZero.string_of_int. destruct (Z.to_int z) as [d|d].
  - apply nilzero_below_A.
  - change (below_A "-" && Py.all_chars below_A (NilZero.string_of_uint d) = true).
    now rewrite nilzero_below_A.
Qed.

(** A value whose text has no character from ["A"] upwards is matched by
    no entry of the table. *)
Lemma below_A_unknown (v : Py.object) :
  Py.all_chars below_A (Py.str v) = true -> find_category v = "Unknown".
Proof.
  intros H. unfold find_category. apply loop_unknown.
  apply List.Forall_forall. intros e He.
  destruct (entry_matches (normalize v) e) eqn:Hm; [|reflexivity].
  destruct (match_shape _ _ He Hm) as [x [y [rest [Hc [_ Hy]]]]].
  assert (Hn : Py.all_chars below_A (normalize v) = true).
  { unfold normalize, Py.strip.
    rewrite upper_below_A; auto using rstrip_all_chars, lstrip_all_chars. }
  rewrite Hc in Hn. simpl in Hn.
  apply andb_true_iff in Hn as [_ Hn]. apply andb_true_iff in Hn as [Hn _].
  unfold below_A in Hn. apply N.ltb_lt in Hn. lia.
Qed.

End Digits.

(** X1. On the table the order of the entries decides nothing: a code is
    classified with the label of an entry exactly when that entry matches
    it, by its range or by its prefix. *)
Theorem classify_iff_match (c label start end_ : string) :
  In (label, (start, end_)) icd11_ranges ->
  classify c = label <->
  in_range (normalize (Py.Str c)) start end_ = true
  \/ prefix_hit (normalize (Py.Str c)) start = true.
Proof.
  intros Hin. unfold classify, find_category.
  rewrite (loop_label_iff _ label start end_ Hin).
  unfold entry_matches. cbn [fst snd]. apply orb_true_iff.
Qed.

Lemma classify_iff_match_witness :
  In ("2. Neoplasms", ("2A00", "2F9Z")) icd11_ranges
  /\ (classify "2b7" = "2. Neoplasms" <->
      in_range (normalize (Py.Str "2b7")) "2A00" "2F9Z" = true
      \/ prefix_hit (normalize (Py.Str "2b7")) "2A00" = true).
Proof.
  assert (Hin : In ("2. Neoplasms", ("2A00", "2F9Z")) icd11_ranges)
    by (right; left; reflexivity).
  split; [exact Hin|].
  exact (classify_iff_match "2b7" "2. Neoplasms" "2A00" "2F9Z" Hin).
Defined.

(** X2. A code is classified ["Unknown"] exactly when no entry of the
    table matches it: the sentinel is never the answer for a code that
    some entry takes. *)
Theorem classify_unknown_iff (c : string) :
  classify c = "Unknown" <->
  Forall (fun e => entry_matches (normalize (Py.Str c)) e = false) icd11_ranges.
Proof. apply loop_unknown_iff. Qed.

(** X3. A code that is classified with a chapter has, once normalised, at
    least two characters: the first is the first character of the
    chapter's start code and the second is ["A"] or comes after it.  So
    codes of fewer than two characters, and codes whose second character is
    a digit, belong to no chapter. *)
Theorem classified_code_shape (c label start end_ : string) :
  In (label, (start, end_)) icd11_ranges ->
  classify c = label ->
  exists x y rest,
    normalize (Py.Str c) = String x (String y rest)
    /\ Py.slice_to 1 start = String x EmptyString
    /\ (65 <= N_of_ascii y)%N.
Proof.
  intros Hin Hc. unfold classify, find_category in Hc.
  apply (loop_label_iff _ label start end_ Hin) in Hc.
  exact (match_shape _ _ Hin Hc).
Qed.

Lemma classified_code_shape_witness :
  In ("2. Neoplasms", ("2A00", "2F9Z")) icd11_ranges
  /\ classify " 2c31 " = "2. Neoplasms"
  /\ exists x y rest,
       normalize (Py.Str " 2c31 ") = String x (String y rest)
       /\ Py.slice_to 1 "2A00" = String x EmptyString
       /\ (65 <= N_of_ascii y)%N.
Proof.
  assert (Hin : In ("2. Neoplasms", ("2A00", "2F9Z")) icd11_ranges)
    by (right; left; reflexivity).
  split; [exact Hin|]. split; [reflexivity|].
  exact (classified_code_shape " 2c31 " "2. Neoplasms" "2A00" "2F9Z" Hin eq_refl).
Defined.

(** ** The loaded frame *)

Section Loaded.

Implicit Types (data : list Pd.row) (r : Pd.row).

Lemma enumerate_from_column (vs : list string) : forall n,
  Pd.column (enumerate_from n vs) = vs.
Proof.
  induction vs as [|v vs IH]; intros n; simpl; [reflexivity|].
  f_equal. apply IH.
Qed.

Lemma load_data_map (raw : list Py.object) :
  load_data raw =
  map (fun r => Pd.Row (Pd.label r) (Pd.diagnosis r) (classify (Pd.diagnosis r)))
    (enumerate_from 0 (map normalize raw)).
Proof. unfold load_data. apply assign_map. Qed.

Lemma normalize_normal (v : Py.object) :
  normalize (Py.Str (normalize v)) = normalize v.
Proof. apply (normalize_idem (Py.str v)). Qed.

Lemma load_data_consistent (raw : list Py.object) : consistent (load_data raw).
Proof.
  unfold consistent. rewrite load_data_map.
  apply List.Forall_forall. intros r Hr.
  apply in_map_iff in Hr as [r0 [<- Hr0]]. simpl. split; [|reflexivity].
  assert (Hd : In (Pd.diagnosis r0) (map normalize raw)).
  { rewrite <- (enumerate_from_column (map normalize raw) 0).
    now apply in_map. }
  apply in_map_iff in Hd as [v [<- _]]. apply normalize_normal.
Qed.

(** On a consistent frame, computing the chapters anew changes no row. *)
Lemma recompute_consistent data :
  consistent data ->
  map (fun r => Pd.Row (Pd.label r) (Pd.diagnosis r) (classify (Pd.diagnosis r)))
    data = data.
Proof.
  induction 1 as [|r data [_ Hc] _ IH]; simpl; [reflexivity|].
  rewrite IH. f_equal. destruct r as [l d k]. simpl in *. now rewrite Hc.
Qed.

Lemma consistent_filter (f : Pd.row -> bool) data :
  consistent data -> consistent (List.filter f data).
Proof.
  unfold consistent. rewrite !List.Forall_forall.
  intros H r Hr. apply filter_In in Hr as [Hr _]. auto.
Qed.

End Loaded.

(** ** Prefixes and normalisation *)

Section Prefixes.

Implicit Types (p s t : string) (a : ascii).

Lemma prefix_nil s : String.prefix EmptyString s = true.
Proof. now destruct s. Qed.

Lemma prefix_of_nil p : String.prefix p EmptyString = true -> p = EmptyString.
Proof. destruct p; [reflexivity|discriminate]. Qed.

Lemma prefix_trans p : forall s t,
  String.prefix p s = true -> String.prefix s t = true -> String.prefix p t = true.
Proof.
  induction p as [|a p IH]; intros s t H1 H2; [apply prefix_nil|].
  destruct s as [|b s]; [discriminate H1|].
  destruct t as [|c t]; [discriminate H2|].
  apply prefix_cons in H1 as [-> H1]. apply prefix_cons in H2 as [-> H2].
  apply prefix_cons. eauto.
Qed.

Lemma kept_char_spec a :
  kept_char a = true -> Py.isspace a = false /\ Py.upper_char a = a.
Proof.
  unfold kept_char. intros H. apply andb_true_iff in H as [H1 H2].
  apply negb_true_iff in H1. now apply Ascii.eqb_eq in H2.
Qed.

Lemma prefix_lstrip p s :
  Py.all_chars kept_char p = true -> String.prefix p s = true ->
  String.prefix p (Py.lstrip s) = true.
Proof.
  destruct p as [|a p]; [intros; apply prefix_nil|].
  destruct s as [|b s]; [discriminate|].
  intros Hk H. pose proof H as H'. apply prefix_cons in H' as [<- _].
  simpl in Hk. apply andb_true_iff in Hk as [Ha _].
  apply kept_char_spec in Ha as [Ha _].
  change (Py.lstrip (String a s)) with (if Py.isspace a then Py.lstrip s else String a s).
  now rewrite Ha.
Qed.

Lemma prefix_rstrip p : forall s,
  Py.all_chars kept_char p = true -> String.prefix p s = true ->
  String.prefix p (Py.rstrip s) = true.
Proof.
  induction p as [|a p IH]; intros s Hk H; [apply prefix_nil|].
  destruct s as [|b s]; [discriminate H|].
  apply prefix_cons in H as [<- H].
  simpl in Hk. apply andb_true_iff in Hk as [Ha Hk].
  apply kept_char_spec in Ha as [Ha _]. specialize (IH s Hk H).
  change (Py.rstrip (String a s)) with
    (match Py.rstrip s with
     | EmptyString => if Py.isspace a then EmptyString else String a EmptyString
     | String _ _ as r => String a r
     end).
  destruct (Py.rstrip s) as [|c r].
  - rewrite Ha. apply prefix_cons. split; [reflexivity|].
    apply prefix_of_nil in IH. subst p. reflexivity.
  - apply prefix_cons. now split.
Qed.

Lemma prefix_upper p : forall s,
  Py.all_chars kept_char p = true -> String.prefix p s = true ->
  String.prefix p (Py.upper s) = true.
Proof.
  induction p as [|a p IH]; intros s Hk H; [apply prefix_nil|].
  destruct s as [|b s]; [discriminate H|].
  apply prefix_cons in H as [<- H].
  simpl in Hk. apply andb_true_iff in Hk as [Ha Hk].
  apply kept_char_spec in Ha as [_ Ha].
  change (Py.upper (String a s)) with (String (Py.upper_char a) (Py.upper s)).
  rewrite Ha. apply prefix_cons. split; [reflexivity|]. now apply IH.
Qed.

(** A prefix made of characters that normalisation keeps is still a prefix
    after normalisation. *)
Lemma prefix_normalize p s :
  Py.all_chars kept_char p = true -> String.prefix p s = true ->
  String.prefix p (normalize (Py.Str s)) = true.
Proof.
  intros Hk H. unfold normalize, Py.strip. simpl.
  auto using prefix_upper, prefix_rstrip, prefix_lstrip.
Qed.

Lemma icd11_prefixes_kept e :
  In e icd11_ranges ->
  Py.all_chars kept_char (Py.slice_to 2 (fst (snd e))) = true.
Proof.
  assert (H : forallb (fun e => Py.all_chars kept_char (Py.slice_to 2 (fst (snd e))))
                icd11_ranges = true) by (vm_compute; reflexivity).
  rewrite forallb_forall in H. apply H.
Qed.

End Prefixes.

Section Queries.

Implicit Types (data : list Pd.row) (r : Pd.row).

Lemma filter_weaken {A : Type} (f g : A -> bool) (l : list A) :
  (forall x, f x = true -> g x = true) ->
  sublist (List.filter f l) (List.filter g l).
Proof.
  intros H. induction l as [|x l IH]; simpl; [constructor|].
  destruct (f x) eqn:Hf.
  - rewrite (H x Hf). now constructor.
  - destruct (g x); [now constructor|exact IH].
Qed.

Lemma le_nil_l (s : string) : Py.le EmptyString s = true.
Proof. now destruct s. Qed.

Lemma le_nil_r (s : string) : Py.le s EmptyString = true -> s = EmptyString.
Proof. destruct s; [reflexivity|discriminate]. Qed.

Lemma le_antisym (a b : string) :
  Py.le a b && Py.le b a = String.eqb a b.
Proof.
  destruct (String.eqb_spec a b) as [->|Hne].
  - unfold Py.le, String.leb. now rewrite compare_refl.
  - destruct (Py.le a b) eqn:H1; [|reflexivity].
    destruct (Py.le b a) eqn:H2; [|reflexivity].
    exfalso. apply Hne. now apply String.leb_antisym.
Qed.

End Queries.

(** X7. On a frame as the load step leaves it, the specific code search
    returns the stored rows themselves: computing the chapters again changes
    nothing, the result is a subsequence of the frame and is again such a
    frame. *)
Theorem prefixSearch_consistent (data : list Pd.row) (sc : string) :
  consistent data ->
  prefixSearch data sc =
    List.filter (fun r => Py.startswith (Pd.diagnosis r) (Py.upper sc)) data
  /\ sublist (prefixSearch data sc) data
  /\ consistent (prefixSearch data sc).
Proof.
  intros H. unfold prefixSearch. rewrite filtered_sc_filter.
  rewrite recompute_consistent by now apply consistent_filter.
  split; [reflexivity|]. split; [apply filter_is_sublist|].
  now apply consistent_filter.
Qed.

Lemma example_collection_consistent : consistent example_collection.
Proof.
  unfold example_collection. apply load_data_consistent.
Defined.

Lemma prefixSearch_consistent_witness :
  consistent example_collection
  /\ prefixSearch example_collection "2a" =
       List.filter (fun r => Py.startswith (Pd.diagnosis r) (Py.upper "2a"))
         example_collection.
Proof.
  split; [exact example_collection_consistent|].
  exact (proj1 (prefixSearch_consistent example_collection "2a"
                  example_collection_consistent)).
Defined.

(** A row of a loaded frame whose code lies in the range of an entry
    carries that entry's label. *)
Lemma row_in_range_label (data : list Pd.row)
    (label start end_ : string) (r : Pd.row) :
  consistent data ->
  In (label, (start, end_)) icd11_ranges ->
  In r data ->
  in_range (Pd.diagnosis r) start end_ = true ->
  Pd.ICD_Category r = label.
Proof.
  intros Hc Hin Hr Hrange.
  unfold consistent in Hc. rewrite List.Forall_forall in Hc.
  destruct (Hc r Hr) as [Hn ->]. unfold classify, find_category. rewrite Hn.
  apply (loop_range icd11_ranges _ label start end_);
    [apply icd11_ranges_clear_of_range | exact Hin | exact Hrange].
Qed.

(** A code that starts with the two-character prefix of an entry is
    classified with that entry's label. *)
Lemma code_with_prefix_label (label start end_ d : string) :
  In (label, (start, end_)) icd11_ranges ->
  String.prefix (Py.slice_to 2 start) d = true ->
  classify d = label.
Proof.
  intros Hin Hd. unfold classify, find_category.
  apply (loop_prefix icd11_ranges _ label start end_);
    [apply icd11_ranges_clear_of_prefix | exact Hin |].
  unfold prefix_hit, Py.startswith. apply prefix_normalize; [|exact Hd].
  apply (icd11_prefixes_kept (label, (start, end_)) Hin).
Qed.

(** X8. On a loaded frame, the range search between the two bounds of a
    chapter (in either case) returns only rows of that chapter. *)
Theorem rangeSearch_chapter (data : list Pd.row)
    (label start end_ s e : string) (r : Pd.row) :
  consistent data ->
  In (label, (start, end_)) icd11_ranges ->
  Py.upper s = start -> Py.upper e = end_ ->
  In r (rangeSearch data s e) ->
  Pd.ICD_Category r = label.
Proof.
  intros Hc Hin Hs He Hr. unfold rangeSearch in Hr.
  rewrite filtered_filter, Hs, He in Hr. apply filter_In in Hr as [Hr Hrange].
  exact (row_in_range_label data label start end_ r Hc Hin Hr Hrange).
Qed.

Lemma rangeSearch_chapter_witness :
  consistent example_collection
  /\ In ("2. Neoplasms", ("2A00", "2F9Z")) icd11_ranges
  /\ Py.upper "2a00" = "2A00" /\ Py.upper "2f9z" = "2F9Z"
  /\ In (Pd.Row 3 "2A21" "2. Neoplasms") (rangeSearch example_collection "2a00" "2f9z")
  /\ Pd.ICD_Category (Pd.Row 3 "2A21" "2. Neoplasms") = "2. Neoplasms".
Proof.
  assert (Hin : In ("2. Neoplasms", ("2A00", "2F9Z")) icd11_ranges)
    by (right; left; reflexivity).
  assert (Hr : In (Pd.Row 3 "2A21" "2. Neoplasms")
                 (rangeSearch example_collection "2a00" "2f9z"))
    by (right; left; reflexivity).
  split; [exact example_collection_consistent|]. split; [exact Hin|].
  split; [reflexivity|]. split; [reflexivity|]. split; [exact Hr|].
  exact (rangeSearch_chapter example_collection "2. Neoplasms" "2A00" "2F9Z"
           "2a00" "2f9z" _ example_collection_consistent Hin eq_refl eq_refl Hr).
Defined.

(** X9. On any frame, a specific code search whose prefix begins (in
    either case) with the first two characters of a chapter's start code
    returns only rows shown with that chapter. *)
Theorem prefixSearch_chapter (data : list Pd.row)
    (label start end_ p : string) (r : Pd.row) :
  In (label, (start, end_)) icd11_ranges ->
  Py.startswith (Py.upper p) (Py.slice_to 2 start) = true ->
  In r (prefixSearch data p) ->
  Pd.ICD_Category r = label.
Proof.
  intros Hin Hp Hr. unfold prefixSearch in Hr. rewrite filtered_sc_filter in Hr.
  apply in_map_iff in Hr as [r0 [<- Hr0]]. apply filter_In in Hr0 as [_ Hd].
  simpl. apply (code_with_prefix_label label start end_ _ Hin).
  unfold Py.startswith in *. eapply prefix_trans; eauto.
Qed.

Lemma prefixSearch_chapter_witness :
  In ("2. Neoplasms", ("2A00", "2F9Z")) icd11_ranges
  /\ Py.startswith (Py.upper "2a2") (Py.slice_to 2 "2A00") = true
  /\ In (Pd.Row 0 "2A20" "2. Neoplasms") (prefixSearch example_collection "2a2")
  /\ Pd.ICD_Category (Pd.Row 0 "2A20" "2. Neoplasms") = "2. Neoplasms".
Proof.
  assert (Hin : In ("2. Neoplasms", ("2A00", "2F9Z")) icd11_ranges)
    by (right; left; reflexivity).
  assert (Hr : In (Pd.Row 0 "2A20" "2. Neoplasms")
                 (prefixSearch example_collection "2a2"))
    by (left; reflexivity).
  split; [exact Hin|]. split; [reflexivity|]. split; [exact Hr|].
  exact (prefixSearch_chapter example_collection "2. Neoplasms" "2A00" "2F9Z"
           "2a2" _ Hin eq_refl Hr).
Defined.

(** X10. Widening the bounds of a range search never loses a row: the
    result for the narrower bounds is a subsequence of the result for the
    wider ones. *)
Theorem rangeSearch_monotone (data : list Pd.row) (s e s' e' : string) :
  Py.le (Py.upper s') (Py.upper s) = true ->
  Py.le (Py.upper e) (Py.upper e') = true ->
  sublist (rangeSearch data s e) (rangeSearch data s' e').
Proof.
  intros Hs He. unfold rangeSearch. rewrite !filtered_filter.
  apply filter_weaken. intros r Hr. unfold in_range in *.
  apply andb_true_iff in Hr as [H1 H2]. apply andb_true_iff.
  split; eauto using le_trans.
Qed.

Lemma rangeSearch_monotone_witness :
  Py.le (Py.upper "1a00") (Py.upper "2a00") = true
  /\ Py.le (Py.upper "2a20") (Py.upper "2f9z") = true
  /\ sublist (rangeSearch example_collection "2a00" "2a20")
             (rangeSearch example_collection "1a00" "2f9z").
Proof.
  split; [reflexivity|]. split; [reflexivity|].
  exact (rangeSearch_monotone example_collection "2a00" "2a20" "1a00" "2f9z"
           eq_refl eq_refl).
Defined.

(** X11. A range search with the same text in both bounds is the search
    for that exact code: it returns the rows whose code is the uppercased
    text, and no other. *)
Theorem rangeSearch_point (data : list Pd.row) (c : string) :
  rangeSearch data c c =
  List.filter (fun r => String.eqb (Py.upper c) (Pd.diagnosis r)) data.
Proof.
  unfold rangeSearch. rewrite filtered_filter. apply filter_ext.
  intros r. unfold in_range. apply le_antisym.
Qed.

(** X12. Blank bounds are taken as they are.  A blank start bound puts no
    lower limit on the codes; a blank end bound admits only rows whose code
    is empty, and only when the start bound is blank as well. *)
Theorem rangeSearch_blank_bounds (data : list Pd.row) (s e : string) :
  rangeSearch data "" e =
    List.filter (fun r => Py.le (Pd.diagnosis r) (Py.upper e)) data
  /\ (forall r, In r (rangeSearch data s "") ->
        Pd.diagnosis r = "" /\ s = "").
Proof.
  unfold rangeSearch. rewrite !filtered_filter. split.
  - apply filter_ext. intros r. unfold in_range. simpl.
    now rewrite le_nil_l.
  - intros r Hr. apply filter_In in Hr as [_ Hr]. unfold in_range in Hr.
    apply andb_true_iff in Hr as [H1 H2]. simpl in H2.
    apply le_nil_r in H2. rewrite H2 in H1. apply le_nil_r in H1.
    split; [exact H2|]. now destruct s.
Qed.

(** ** The summary of a loaded frame *)

Section LoadedSummary.

Variable sort_values : list (string * nat) -> list (string * nat).
Hypothesis sort_values_perm : forall l, Permutation (sort_values l) l.

Lemma classify_label (c : string) : In (classify c) chapter_labels.
Proof.
  unfold chapter_labels, classify, find_category.
  destruct (loop_result (normalize (Py.Str c)) icd11_ranges) as [->|H];
    [now left|now right].
Qed.

Lemma summary_label_consistent (data : list Pd.row) (k : string) :
  consistent data ->
  In k (map fst (summary sort_values data)) -> In k chapter_labels.
Proof.
  intros Hc Hk. apply in_map_iff in Hk as [[k' n] [E Hk]]. simpl in E. subst k'.
  unfold summary, Pd.value_counts in Hk.
  apply (Permutation_in _ (sort_values_perm _)) in Hk.
  destruct (tally_spec (Pd.categories data)) as [_ [_ Ht]].
  apply Ht in Hk as [_ Hk]. unfold Pd.categories in Hk.
  apply in_map_iff in Hk as [r [<- Hr]].
  unfold consistent in Hc. rewrite List.Forall_forall in Hc.
  destruct (Hc r Hr) as [_ ->]. apply classify_label.
Qed.

Lemma summary_labels_NoDup (data : list Pd.row) :
  List.NoDup (map fst (summary sort_values data)).
Proof.
  unfold summary, Pd.value_counts.
  destruct (tally_spec (Pd.categories data)) as [_ [Hn _]].
  apply (Permutation_NoDup (l := map fst (Pd.tally (Pd.categories data))));
    [|exact Hn].
  apply Permutation_map. symmetry. apply sort_values_perm.
Qed.

End LoadedSummary.

(** X13. Whatever order the sort gives to equal counts, the summary of a
    loaded frame shows only labels of the table and ["Unknown"], each at
    most once, so it never has more than 23 rows. *)
Theorem summary_loaded_labels
    (sort_values : list (string * nat) -> list (string * nat))
    (data : list Pd.row) :
  (forall l, Permutation (sort_values l) l) ->
  consistent data ->
  (forall k n, In (k, n) (summary sort_values data) -> In k chapter_labels)
  /\ List.NoDup (map fst (summary sort_values data))
  /\ length (summary sort_values data) <= 23.
Proof.
  intros Hp Hc. split; [|split].
  - intros k n Hk. apply (summary_label_consistent sort_values Hp data k Hc).
    apply in_map_iff. now exists (k, n).
  - apply summary_labels_NoDup, Hp.
  - rewrite <- (length_map fst).
    change 23 with (length chapter_labels).
    apply NoDup_incl_length; [apply summary_labels_NoDup, Hp|].
    intros k Hk. now apply (summary_label_consistent sort_values Hp data).
Qed.

Lemma summary_loaded_labels_witness :
  (forall l, Permutation (Pd.sort_desc l) l)
  /\ consistent example_collection
  /\ length (summary Pd.sort_desc example_collection) <= 23.
Proof.
  split; [exact sort_desc_perm|]. split; [exact example_collection_consistent|].
  exact (proj2 (proj2 (summary_loaded_labels Pd.sort_desc example_collection
                         sort_desc_perm example_collection_consistent))).
Defined.

Lemma summary_spec_witness :
  (forall l, Permutation (Pd.sort_desc l) l)
  /\ (forall l, descending (Pd.sort_desc l))
  /\ total (summary Pd.sort_desc example_collection) = length example_collection.
Proof.
  split; [exact sort_desc_perm|]. split; [exact sort_desc_descending|].
  exact (proj1 (summary_spec Pd.sort_desc sort_desc_perm sort_desc_descending
                  example_collection)).
Defined.

(** ** The upload *)

Section Upload.

Implicit Types (files : list upload) (f g : upload) (frames : list (list string)).
Implicit Types (columns acc cols : list string).

Lemma add_columns_In (x : string) cols : forall acc,
  In x (fold_left (fun acc c => if existsb (String.eqb c) acc then acc
                                else (acc ++ [c])%list) cols acc) <->
  In x acc \/ In x cols.
Proof.
  induction cols as [|c cols IH]; intros acc; simpl; [tauto|].
  rewrite IH. destruct (existsb (String.eqb c) acc) eqn:E.
  - apply existsb_eqb_In in E. split; [tauto|].
    intros [H|[<-|H]]; tauto.
  - rewrite in_app_iff. simpl. tauto.
Qed.

Lemma concat_columns_acc (x : string) frames : forall acc,
  In x (fold_left
          (fun acc cols =>
             fold_left (fun acc c => if existsb (String.eqb c) acc then acc
                                      else (acc ++ [c])%list) cols acc)
          frames acc) <->
  In x acc \/ exists cols, In cols frames /\ In x cols.
Proof.
  induction frames as [|cols frames IH]; intros acc; simpl.
  - split; [tauto|]. intros [H|[cols [[] _]]]. exact H.
  - rewrite IH, add_columns_In. split.
    + intros [[H|H]|[cols' [H1 H2]]]; eauto.
    + intros [H|[cols' [[<-|H1] H2]]]; eauto.
Qed.

(** A column is in the concatenated frame exactly when some frame has it. *)
Lemma concat_columns_In (x : string) frames :
  In x (concat_columns frames) <-> exists cols, In cols frames /\ In x cols.
Proof.
  unfold concat_columns. rewrite concat_columns_acc. simpl. tauto.
Qed.

Lemma read_all_frames files : forall frames,
  read_all files = inr frames ->
  forall f, In f files ->
    exists cols, frame_columns f = Some cols /\ In cols frames.
Proof.
  induction files as [|g files IH]; intros frames H f Hf; [destruct Hf|].
  simpl in H. destruct (frame_columns g) as [cols|] eqn:Hg; [|discriminate H].
  destruct (read_all files) as [bad|frames'] eqn:Hr; [discriminate H|].
  injection H as <-. destruct Hf as [->|Hf].
  - exists cols. split; [exact Hg|now left].
  - destruct (IH frames' eq_refl f Hf) as [cols' [H1 H2]].
    exists cols'. split; [exact H1|now right].
Qed.

Lemma frame_columns_supported f :
  reader_of (name f) <> None -> exists cols, frame_columns f = Some cols.
Proof.
  unfold frame_columns. destruct (reader_of (name f)) as [[]|]; eauto.
  congruence.
Qed.

Lemma read_all_supported files :
  (forall g, In g files -> reader_of (name g) <> None) ->
  exists frames, read_all files = inr frames.
Proof.
  induction files as [|g files IH]; intros H; [now exists []|].
  destruct (frame_columns_supported g) as [cols Hg]; [apply H; now left|].
  destruct IH as [frames Hr]; [intros; apply H; now right|].
  exists (cols :: frames). simpl. now rewrite Hg, Hr.
Qed.

End Upload.

(** X16. When every uploaded file is supported and one of them is a text
    file, the load finds its column and takes ["Diagnosis"], whatever the
    columns of the other files are. *)
Theorem load_files_txt (files : list upload) (f : upload) :
  In f files ->
  reader_of (name f) = Some read_txt ->
  (forall g, In g files -> reader_of (name g) <> None) ->
  load_files files = Loaded "Diagnosis".
Proof.
  intros Hf Htxt Hall. unfold load_files.
  destruct files as [|f0 files]; [destruct Hf|].
  destruct (read_all_supported (f0 :: files) Hall) as [frames Hr]. rewrite Hr.
  destruct (read_all_frames _ _ Hr f Hf) as [cols [Hc Hin]].
  unfold frame_columns in Hc. rewrite Htxt in Hc. injection Hc as <-.
  unfold detect_column.
  assert (H : existsb (String.eqb "Diagnosis") (concat_columns frames) = true).
  { apply existsb_eqb_In, concat_columns_In.
    exists ["Diagnosis"]. split; [exact Hin|now left]. }
  now rewrite H.
Qed.

Lemma load_files_txt_witness :
  In (Upload "notes.txt" []) [Upload "codes.csv" ["code"]; Upload "notes.txt" []]
  /\ reader_of (name (Upload "notes.txt" [])) = Some read_txt
  /\ load_files [Upload "codes.csv" ["code"]; Upload "notes.txt" []]
       = Loaded "Diagnosis".
Proof.
  assert (Hin : In (Upload "notes.txt" [])
                  [Upload "codes.csv" ["code"]; Upload "notes.txt" []])
    by (right; left; reflexivity).
  split; [exact Hin|]. split; [reflexivity|].
  apply (load_files_txt _ (Upload "notes.txt" []) Hin eq_refl).
  intros g [<-|[<-|[]]]; discriminate.
Defined.

(** X17. The search tabs work on the column the load step normalised: when
    the load finds a column, that column is in the frame, and the tabs'
    own choice of column on the loaded frame is the same one. *)
Theorem query_column_agrees (columns : list string) (col : string) :
  detect_column columns = Some col ->
  In col columns /\ query_column (loaded_columns columns) = col.
Proof.
  unfold detect_column, query_column, loaded_columns. intros H.
  assert (Hd : existsb (String.eqb "Diagnosis")
                 (if existsb (String.eqb "ICD_Category") columns then columns
                  else (columns ++ ["ICD_Category"])%list)
               = existsb (String.eqb "Diagnosis") columns).
  { destruct (existsb (String.eqb "ICD_Category") columns); [reflexivity|].
    rewrite existsb_app. simpl. now rewrite !orb_false_r. }
  rewrite Hd.
  destruct (existsb (String.eqb "Diagnosis") columns) eqn:E1.
  - injection H as <-. split; [now apply existsb_eqb_In|reflexivity].
  - destruct (existsb (String.eqb "code") columns) eqn:E2; [|discriminate H].
    injection H as <-. split; [now apply existsb_eqb_In|reflexivity].
Qed.

Lemma query_column_agrees_witness :
  detect_column ["id"; "code"] = Some "code"
  /\ In "code" ["id"; "code"]
  /\ query_column (loaded_columns ["id"; "code"]) = "code".
Proof.
  split; [reflexivity|].
  exact (query_column_agrees ["id"; "code"] "code" eq_refl).
Defined.

(** ** Searches against the summary *)

Section SearchAndSummary.

Implicit Types (data found : list Pd.row) (r : Pd.row).

(** Rows taken in order from a frame that all carry one chapter are no
    more than the rows of the frame that carry it. *)
Lemma chapter_rows_bound (label : string) found data :
  sublist found data ->
  (forall r, In r found -> Pd.ICD_Category r = label) ->
  length found <= count_occ string_dec (Pd.categories data) label.
Proof.
  intros Hs. induction Hs as [|r l1 l2 Hs IH|r l1 l2 Hs IH]; simpl; intros Hl.
  - lia.
  - rewrite (Hl r) by now left.
    destruct (string_dec label label); [|contradiction].
    apply le_n_S, IH. intros r' Hr'. apply Hl. now right.
  - specialize (IH Hl).
    destruct (string_dec (Pd.ICD_Category r) label); lia.
Qed.

Lemma count_of_perm (k : string) (l l' : list (string * nat)) :
  Permutation l l' -> count_of k l = count_of k l'.
Proof.
  induction 1 as [|[k1 n1] l l' _ IH|[k1 n1] [k2 n2] l|l l' l'' _ IH1 _ IH2];
    simpl; lia.
Qed.

(** The count the summary records for a chapter is the number of rows that
    carry it. *)
Lemma summary_count_of
    (sort_values : list (string * nat) -> list (string * nat))
    data (label : string) :
  (forall l, Permutation (sort_values l) l) ->
  count_of label (summary sort_values data) =
  count_occ string_dec (Pd.categories data) label.
Proof.
  intros Hp. unfold summary, Pd.value_counts.
  rewrite (count_of_perm label _ _ (Hp _)).
  destruct (fold_bump (Pd.categories data) []) as [_ [Hc _]].
  unfold Pd.tally. rewrite Hc. simpl. lia.
Qed.

Lemma icd11_bounds_upper (label start end_ : string) :
  In (label, (start, end_)) icd11_ranges ->
  Py.upper start = start /\ Py.upper end_ = end_
  /\ Py.startswith (Py.upper (Py.slice_to 2 start)) (Py.slice_to 2 start) = true.
Proof.
  assert (H : forallb
                (fun e => String.eqb (Py.upper (fst (snd e))) (fst (snd e))
                          && String.eqb (Py.upper (snd (snd e))) (snd (snd e))
                          && Py.startswith (Py.upper (Py.slice_to 2 (fst (snd e))))
                               (Py.slice_to 2 (fst (snd e))))
                icd11_ranges = true) by (vm_compute; reflexivity).
  rewrite forallb_forall in H. intros Hin. specialize (H _ Hin). simpl in H.
  apply andb_true_iff in H as [H H3]. apply andb_true_iff in H as [H1 H2].
  apply String.eqb_eq in H1, H2. auto.
Qed.

End SearchAndSummary.

(** X18. On a loaded frame, the range search between the bounds of a
    chapter, and the specific code search for the first two characters of
    its start code, each find at most as many rows as the summary counts
    for that chapter (none when the summary has no row for it). *)
Theorem search_within_summary
    (sort_values : list (string * nat) -> list (string * nat))
    (data : list Pd.row) (label start end_ : string) :
  (forall l, Permutation (sort_values l) l) ->
  consistent data ->
  In (label, (start, end_)) icd11_ranges ->
  length (rangeSearch data start end_) <= count_of label (summary sort_values data)
  /\ length (prefixSearch data (Py.slice_to 2 start))
       <= count_of label (summary sort_values data).
Proof.
  intros Hp Hc Hin. rewrite (summary_count_of sort_values data label Hp).
  destruct (icd11_bounds_upper label start end_ Hin) as [Hs [He Hpre]].
  split.
  - apply chapter_rows_bound; [apply rangeSearch_sublist|].
    intros r Hr. unfold rangeSearch in Hr.
    rewrite filtered_filter, Hs, He in Hr. apply filter_In in Hr as [Hr Hrange].
    exact (row_in_range_label data label start end_ r Hc Hin Hr Hrange).
  - apply chapter_rows_bound.
    + unfold prefixSearch. rewrite filtered_sc_filter.
      rewrite recompute_consistent by now apply consistent_filter.
      apply filter_is_sublist.
    + intros r Hr. unfold prefixSearch in Hr. rewrite filtered_sc_filter in Hr.
      apply in_map_iff in Hr as [r0 [<- Hr0]]. apply filter_In in Hr0 as [_ Hd].
      simpl. apply (code_with_prefix_label label start end_ _ Hin).
      unfold Py.startswith in *. eapply prefix_trans; eauto.
Qed.

Lemma search_within_summary_witness :
  (forall l, Permutation (Pd.sort_desc l) l)
  /\ consistent example_collection
  /\ In ("2. Neoplasms", ("2A00", "2F9Z")) icd11_ranges
  /\ length (rangeSearch example_collection "2A00" "2F9Z")
       <= count_of "2. Neoplasms" (summary Pd.sort_desc example_collection).
Proof.
  assert (Hin : In ("2. Neoplasms", ("2A00", "2F9Z")) icd11_ranges)
    by (right; left; reflexivity).
  split; [exact sort_desc_perm|]. split; [exact example_collection_consistent|].
  split; [exact Hin|].
  exact (proj1 (search_within_summary Pd.sort_desc example_collection
                  "2. Neoplasms" "2A00" "2F9Z"
                  sort_desc_perm example_collection_consistent Hin)).
Defined.

(** ** Python's normalisation, by code point *)

Section UnicodeCase.

Local Open Scope list_scope.

Implicit Types (cp : N) (s a b u : Uni.text).

Lemma eqb_text_eq a : forall b, Uni.eqb_text a b = true -> a = b.
Proof.
  induction a as [|x a IH]; intros [|y b]; simpl; try discriminate; auto.
  intros H. apply andb_true_iff in H as [Hx Hab].
  apply N.eqb_eq in Hx. subst. f_equal. auto.
Qed.

Lemma assoc_In cp (t : list (N * list N)) u :
  Uni.assoc cp t = Some u -> In (cp, u) t.
Proof.
  induction t as [|[k v] t IH]; simpl; [discriminate|].
  destruct (N.eqb_spec cp k) as [->|_].
  - intros [= ->]. now left.
  - intros H. right. auto.
Qed.

(** The table, checked entry by entry: an image is left unchanged by
    [upper]; no white space is in the table; an image is not empty and has
    no white space. *)
Lemma upper_table_closed :
  forallb (fun e => Uni.eqb_text (Uni.upper (snd e)) (snd e)) Uni.upper_table
  = true.
Proof. vm_compute. reflexivity. Qed.

Lemma upper_table_no_space :
  forallb (fun e => negb (Uni.isspace (fst e))
                    && negb (Uni.eqb_text (snd e) [])
                    && forallb (fun c => negb (Uni.isspace c)) (snd e))
    Uni.upper_table = true.
Proof. vm_compute. reflexivity. Qed.

Lemma upper_app a b : Uni.upper (a ++ b) = (Uni.upper a ++ Uni.upper b)%list.
Proof. apply flat_map_app. Qed.

Lemma upper_cp_idem cp : Uni.upper (Uni.upper_cp cp) = Uni.upper_cp cp.
Proof.
  unfold Uni.upper_cp at 1 2. destruct (Uni.assoc cp Uni.upper_table) as [u|] eqn:E.
  - apply assoc_In in E. pose proof upper_table_closed as H.
    rewrite forallb_forall in H. apply (eqb_text_eq _ _ (H _ E)).
  - simpl. unfold Uni.upper_cp. rewrite E. reflexivity.
Qed.

Lemma upper_idem_text s : Uni.upper (Uni.upper s) = Uni.upper s.
Proof.
  induction s as [|cp s IH]; [reflexivity|].
  change (Uni.upper (cp :: s)) with (Uni.upper_cp cp ++ Uni.upper s)%list.
  now rewrite upper_app, upper_cp_idem, IH.
Qed.

Lemma upper_cp_space cp : Uni.isspace cp = true -> Uni.upper_cp cp = [cp].
Proof.
  intros Hs. unfold Uni.upper_cp.
  destruct (Uni.assoc cp Uni.upper_table) as [u|] eqn:E; [|reflexivity].
  apply assoc_In in E. pose proof upper_table_no_space as H.
  rewrite forallb_forall in H. specialize (H _ E). simpl in H.
  rewrite Hs in H. discriminate H.
Qed.

Lemma upper_cp_nonspace cp :
  Uni.isspace cp = false ->
  exists h t, Uni.upper_cp cp = h :: t
              /\ forallb (fun c => negb (Uni.isspace c)) (h :: t) = true.
Proof.
  intros Hs. unfold Uni.upper_cp.
  destruct (Uni.assoc cp Uni.upper_table) as [u|] eqn:E.
  - apply assoc_In in E. pose proof upper_table_no_space as H.
    rewrite forallb_forall in H. specialize (H _ E). simpl in H.
    apply andb_true_iff in H as [H H2]. apply andb_true_iff in H as [_ H1].
    destruct u as [|h t]; [discriminate H1|]. now exists h, t.
  - exists cp, []. split; [reflexivity|]. simpl. now rewrite Hs.
Qed.

Lemma upper_nil s : Uni.upper s = [] -> s = [].
Proof.
  destruct s as [|cp s]; [reflexivity|].
  change (Uni.upper (cp :: s)) with (Uni.upper_cp cp ++ Uni.upper s)%list.
  destruct (Uni.isspace cp) eqn:Hs.
  - rewrite (upper_cp_space cp Hs). discriminate.
  - destruct (upper_cp_nonspace cp Hs) as [h [t [-> _]]]. discriminate.
Qed.

Lemma lstrip_upper_text s :
  Uni.lstrip (Uni.upper s) = Uni.upper (Uni.lstrip s).
Proof.
  induction s as [|cp s IH]; [reflexivity|].
  change (Uni.upper (cp :: s)) with (Uni.upper_cp cp ++ Uni.upper s)%list.
  simpl Uni.lstrip at 2. destruct (Uni.isspace cp) eqn:Hs.
  - rewrite (upper_cp_space cp Hs). simpl. now rewrite Hs.
  - destruct (upper_cp_nonspace cp Hs) as [h [t [E Hn]]].
    change (Uni.upper (cp :: s)) with (Uni.upper_cp cp ++ Uni.upper s)%list.
    rewrite E. simpl in Hn |- *. apply andb_true_iff in Hn as [Hh _].
    apply negb_true_iff in Hh. now rewrite Hh.
Qed.

Lemma rstrip_keeps u :
  forallb (fun c => negb (Uni.isspace c)) u = true -> Uni.rstrip u = u.
Proof.
  induction u as [|h t IH]; [reflexivity|]. simpl. intros H.
  apply andb_true_iff in H as [Hh Ht]. apply negb_true_iff in Hh.
  rewrite (IH Ht), Hh. now destruct t.
Qed.

Lemma rstrip_app a : forall b,
  Uni.rstrip (a ++ b) =
  match Uni.rstrip b with
  | [] => Uni.rstrip a
  | _ => (a ++ Uni.rstrip b)%list
  end.
Proof.
  induction a as [|x a IH]; intros b; simpl.
  - now destruct (Uni.rstrip b).
  - rewrite IH. destruct (Uni.rstrip b) as [|y r]; [reflexivity|].
    now destruct (a ++ y :: r)%list eqn:E; [destruct a; discriminate E|].
Qed.

Lemma rstrip_upper_text s :
  Uni.rstrip (Uni.upper s) = Uni.upper (Uni.rstrip s).
Proof.
  induction s as [|cp s IH]; [reflexivity|].
  change (Uni.upper (cp :: s)) with (Uni.upper_cp cp ++ Uni.upper s)%list.
  rewrite rstrip_app, IH. simpl Uni.rstrip.
  destruct (Uni.rstrip s) as [|y r] eqn:Er.
  - simpl. destruct (Uni.isspace cp) eqn:Hs.
    + rewrite (upper_cp_space cp Hs). simpl. now rewrite Hs.
    + destruct (upper_cp_nonspace cp Hs) as [h [t [E Hn]]].
      change (Uni.upper [cp]) with (Uni.upper_cp cp ++ [])%list.
      rewrite E, app_nil_r. now apply rstrip_keeps.
  - destruct (Uni.upper (y :: r)) as [|z w] eqn:Eu.
    + apply upper_nil in Eu. discriminate Eu.
    + change (Uni.upper (cp :: y :: r))
        with (Uni.upper_cp cp ++ Uni.upper (y :: r))%list.
      now rewrite Eu.
Qed.

Lemma strip_upper_text s : Uni.strip (Uni.upper s) = Uni.upper (Uni.strip s).
Proof. unfold Uni.strip. now rewrite lstrip_upper_text, rstrip_upper_text. Qed.

End UnicodeCase.

Section UnicodeStrip.

Local Open Scope list_scope.

Implicit Types (cp : N) (s a b ws : Uni.text).

Lemma lstrip_head s :
  match Uni.lstrip s with
  | [] => True
  | cp :: _ => Uni.isspace cp = false
  end.
Proof.
  induction s as [|cp s IH]; simpl; [exact I|].
  destruct (Uni.isspace cp) eqn:Hs; [exact IH|exact Hs].
Qed.

Lemma lstrip_rstrip_lstrip s :
  Uni.lstrip (Uni.rstrip (Uni.lstrip s)) = Uni.rstrip (Uni.lstrip s).
Proof.
  pose proof (lstrip_head s) as H.
  destruct (Uni.lstrip s) as [|cp t]; [reflexivity|].
  simpl. destruct (Uni.rstrip t); simpl; rewrite ?H; simpl; rewrite ?H;
    reflexivity.
Qed.

Lemma rstrip_idem_text s : Uni.rstrip (Uni.rstrip s) = Uni.rstrip s.
Proof.
  induction s as [|cp s IH]; [reflexivity|]. simpl.
  destruct (Uni.rstrip s) as [|y r] eqn:Er.
  - destruct (Uni.isspace cp) eqn:Hs; simpl; [reflexivity|now rewrite Hs].
  - change (Uni.rstrip (cp :: y :: r)) with
      (match Uni.rstrip (y :: r) with
       | [] => if Uni.isspace cp then [] else [cp]
       | z :: w => cp :: z :: w
       end).
    now rewrite IH.
Qed.

Lemma strip_idem_text s : Uni.strip (Uni.strip s) = Uni.strip s.
Proof.
  unfold Uni.strip. now rewrite lstrip_rstrip_lstrip, rstrip_idem_text.
Qed.

Lemma lstrip_spaces ws s :
  forallb Uni.isspace ws = true -> Uni.lstrip (ws ++ s) = Uni.lstrip s.
Proof.
  induction ws as [|cp ws IH]; simpl; [reflexivity|].
  intros H. apply andb_true_iff in H as [-> H]. auto.
Qed.

Lemma rstrip_spaces ws :
  forallb Uni.isspace ws = true -> Uni.rstrip ws = [].
Proof.
  induction ws as [|cp ws IH]; simpl; [reflexivity|].
  intros H. apply andb_true_iff in H as [-> H]. now rewrite IH.
Qed.

Lemma lstrip_app a b :
  Uni.lstrip (a ++ b) =
  match Uni.lstrip a with
  | [] => Uni.lstrip b
  | l => l ++ b
  end.
Proof.
  induction a as [|cp a IH]; simpl; [now destruct (Uni.lstrip b)|].
  destruct (Uni.isspace cp); [exact IH|reflexivity].
Qed.

(** White space around a string does not show after [strip]. *)
Lemma strip_padded ws s ws' :
  forallb Uni.isspace ws = true -> forallb Uni.isspace ws' = true ->
  Uni.strip (ws ++ s ++ ws') = Uni.strip s.
Proof.
  intros H H'. unfold Uni.strip.
  rewrite (lstrip_spaces ws _ H), lstrip_app.
  destruct (Uni.lstrip s) as [|cp t].
  - rewrite <- (app_nil_r ws'), (lstrip_spaces ws' [] H'). reflexivity.
  - rewrite rstrip_app, (rstrip_spaces ws' H'). reflexivity.
Qed.

End UnicodeStrip.

Section AsciiText.

Local Open Scope list_scope.

Ltac each_byte a :=
  destruct a as [[] [] [] [] [] [] [] []]; try discriminate; vm_compute; reflexivity.

Lemma ascii_isspace (a : ascii) :
  is_ascii a = true -> Uni.isspace (N_of_ascii a) = Py.isspace a.
Proof. each_byte a. Qed.

Lemma ascii_upper_cp (a : ascii) :
  is_ascii a = true ->
  Uni.upper_cp (N_of_ascii a) = [N_of_ascii (Py.upper_char a)].
Proof. each_byte a. Qed.

Lemma ascii_upper_char (a : ascii) :
  is_ascii a = true -> is_ascii (Py.upper_char a) = true.
Proof. each_byte a. Qed.

Lemma ascii_utf8 (a : ascii) :
  is_ascii a = true -> Uni.utf8 (N_of_ascii a) = [N_of_ascii a].
Proof. each_byte a. Qed.

Lemma of_ascii_cons (a : ascii) (s : string) :
  Uni.of_ascii (String a s) = N_of_ascii a :: Uni.of_ascii s.
Proof. reflexivity. Qed.

Lemma of_ascii_lstrip (s : string) :
  Py.all_chars is_ascii s = true ->
  Uni.lstrip (Uni.of_ascii s) = Uni.of_ascii (Py.lstrip s).
Proof.
  induction s as [|a s IH]; [reflexivity|]. simpl Py.all_chars. intros H.
  apply andb_true_iff in H as [Ha Hs]. rewrite of_ascii_cons. simpl.
  rewrite (ascii_isspace a Ha). destruct (Py.isspace a); auto.
Qed.

Lemma of_ascii_rstrip (s : string) :
  Py.all_chars is_ascii s = true ->
  Uni.rstrip (Uni.of_ascii s) = Uni.of_ascii (Py.rstrip s).
Proof.
  induction s as [|a s IH]; [reflexivity|]. simpl Py.all_chars. intros H.
  apply andb_true_iff in H as [Ha Hs]. rewrite of_ascii_cons. simpl.
  rewrite (IH Hs), (ascii_isspace a Ha).
  destruct (Py.rstrip s); [now destruct (Py.isspace a)|reflexivity].
Qed.

Lemma of_ascii_upper (s : string) :
  Py.all_chars is_ascii s = true ->
  Uni.upper (Uni.of_ascii s) = Uni.of_ascii (Py.upper s)
  /\ Py.all_chars is_ascii (Py.upper s) = true.
Proof.
  induction s as [|a s IH]; [split; reflexivity|]. simpl Py.all_chars. intros H.
  apply andb_true_iff in H as [Ha Hs]. destruct (IH Hs) as [IH1 IH2].
  split.
  - rewrite of_ascii_cons.
    change (Uni.upper (N_of_ascii a :: Uni.of_ascii s))
      with (Uni.upper_cp (N_of_ascii a) ++ Uni.upper (Uni.of_ascii s)).
    now rewrite (ascii_upper_cp a Ha), IH1.
  - simpl. now rewrite (ascii_upper_char a Ha), IH2.
Qed.

Lemma encode_of_ascii (s : string) :
  Py.all_chars is_ascii s = true -> Uni.encode (Uni.of_ascii s) = s.
Proof.
  unfold Uni.encode.
  induction s as [|a s IH]; [reflexivity|]. simpl Py.all_chars. intros H.
  apply andb_true_iff in H as [Ha Hs]. rewrite of_ascii_cons.
  change (flat_map Uni.utf8 (N_of_ascii a :: Uni.of_ascii s))
    with (Uni.utf8 (N_of_ascii a) ++ flat_map Uni.utf8 (Uni.of_ascii s)).
  rewrite (ascii_utf8 a Ha). simpl. now rewrite ascii_N_embedding, (IH Hs).
Qed.

(** On ASCII text, Python's normalisation is [strip] and [upper] of the
    byte model, and [find_category_text] is [classify]. *)
Lemma find_category_text_ascii (s : string) :
  Py.all_chars is_ascii s = true ->
  find_category_text (Uni.of_ascii s) = classify s.
Proof.
  intros H. unfold find_category_text, classify, find_category, normalize.
  unfold Uni.strip, Py.strip. simpl Py.str.
  assert (H1 := lstrip_all_chars is_ascii s H).
  assert (H2 := rstrip_all_chars is_ascii _ H1).
  rewrite (of_ascii_lstrip s H), (of_ascii_rstrip _ H1).
  destruct (of_ascii_upper _ H2) as [-> H3].
  now rewrite (encode_of_ascii _ H3).
Qed.

End AsciiText.

(** C8. [find_category] does not depend on white space around the code or
    on the case of its letters, for Python's own white space and case
    mapping: a string and its stripped, uppercased form are classified
    alike; white space added before and after a string does not change its
    chapter; two strings with the same uppercase form have the same
    chapter.  On ASCII text this is [classify]. *)
Theorem find_category_text_normalized (c : Uni.text) :
  find_category_text c = find_category_text (Uni.upper (Uni.strip c))
  /\ (forall ws ws',
        forallb Uni.isspace ws = true -> forallb Uni.isspace ws' = true ->
        find_category_text (ws ++ c ++ ws')%list = find_category_text c)
  /\ (forall c', Uni.upper c = Uni.upper c' ->
        find_category_text c = find_category_text c')
  /\ (forall s, Py.all_chars is_ascii s = true ->
        find_category_text (Uni.of_ascii s) = classify s)
  /\ find_category_text (Uni.of_ascii " 2a20 ")
       = find_category_text (Uni.of_ascii "2A20")
  /\ find_category_text (Uni.of_ascii " 2a20 ") = "2. Neoplasms"
  /\ find_category_text (Uni.of_ascii "1h0z ")
       = "1. Certain infectious or parasitic diseases"
  /\ find_category_text (160%N :: Uni.of_ascii "2a20") = "2. Neoplasms"
  /\ find_category_text [101; 305; 48; 48]%N
       = "14. Diseases of the skin or subcutaneous tissue".
Proof.
  split; [|split; [|split; [|split; [|repeat split; vm_compute; reflexivity]]]].
  - unfold find_category_text.
    now rewrite strip_upper_text, strip_idem_text, upper_idem_text.
  - intros ws ws' H H'. unfold find_category_text.
    now rewrite (strip_padded ws c ws' H H').
  - intros c' E. unfold find_category_text.
    now rewrite <- !strip_upper_text, E.
  - exact find_category_text_ascii.
Qed.

(** ** The call of [find_category] *)

Section Call.


(** When [str] returns, the call returns what [find_category] computes from
    the text. *)
Lemma find_category_call_returns (v : Py.object) :
  within_str_limit v = true ->
  find_category_call v = Py.Returns (find_category v).
Proof.
  unfold find_category_call, Py.str_call, within_str_limit.
  destruct v as [s|z|b|]; try reflexivity.
  intros H. apply Nat.leb_le in H.
  destruct (Nat.ltb_spec Py.max_str_digits (Py.int_digits z)); [lia|reflexivity].
Qed.

Lemma find_category_call_raises (z : Z) :
  (Py.max_str_digits < Py.int_digits z)%nat ->
  find_category_call (Py.Int z) = Py.Raises Py.ValueError.
Proof.
  unfold find_category_call, Py.str_call. intros H.
  destruct (Nat.ltb_spec Py.max_str_digits (Py.int_digits z)); [reflexivity|lia].
Qed.

End Call.




(** X4. The call of [find_category] on an integer never gives a chapter:
    it raises [ValueError] when the integer has more than 4300 digits, and
    returns ["Unknown"] otherwise, since the text of an integer has only
    digits and a sign and every chapter needs a letter in second place. *)
Theorem find_category_call_int (z : Z) :
  find_category_call (Py.Int z) =
    if (Py.max_str_digits <? Py.int_digits z)%nat then Py.Raises Py.ValueError
    else Py.Returns "Unknown".
Proof.
  destruct (Nat.ltb_spec Py.max_str_digits (Py.int_digits z)) as [H|H].
  - now apply find_category_call_raises.
  - rewrite find_category_call_returns.
    + f_equal. apply below_A_unknown, int_below_A.
    + unfold within_str_limit. now apply Nat.leb_le.
Qed.

(** ** The upload, when a reader may raise *)

Section UploadRun.

Implicit Types (files pre post : list upload) (f g : upload).

Lemma frame_columns_none f :
  frame_columns f = None <-> reader_of (name f) = None.
Proof.
  unfold frame_columns. destruct (reader_of (name f)) as [[]|];
    split; congruence.
Qed.

(** The loop reports an unsupported name when it reaches one: every file
    before it has a reader, and that reader returned. *)
Lemma read_files_stops (reads : upload -> bool) files : forall bad,
  read_files reads files = Some (inl bad) <->
  exists pre f post,
    files = (pre ++ f :: post)%list
    /\ (forall g, In g pre -> reader_of (name g) <> None /\ reads g = true)
    /\ reader_of (name f) = None /\ bad = name f.
Proof.
  induction files as [|g files IH]; intros bad; simpl.
  - split; [discriminate|]. intros [[|? ?] [f [post [E _]]]]; discriminate E.
  - destruct (frame_columns g) as [cols|] eqn:Hg.
    + assert (Hsup : reader_of (name g) <> None).
      { intros E. apply frame_columns_none in E. congruence. }
      destruct (reads g) eqn:Hr.
      * split.
        -- intros H.
           assert (H' : read_files reads files = Some (inl bad)).
           { destruct (read_files reads files) as [[b|frames]|];
               [exact H|discriminate H|discriminate H]. }
           apply IH in H' as [pre [f [post [-> [Hpre [Hf Hb]]]]]].
           exists (g :: pre), f, post. split; [reflexivity|].
           split; [|now split].
           intros g' [<-|Hg']; [now split|now apply Hpre].
        -- intros [pre [f [post [E [Hpre [Hf ->]]]]]].
           destruct pre as [|g' pre]; simpl in E; injection E as Eg Ef.
           ++ subst. contradiction.
           ++ rewrite (proj2 (IH (name f))); [reflexivity|].
              exists pre, f, post. split; [exact Ef|]. split; [|now split].
              intros g'' Hg''. apply Hpre. now right.
      * split; [discriminate|].
        intros [pre [f [post [E [Hpre [Hf ->]]]]]].
        destruct pre as [|g' pre]; simpl in E; injection E as -> ->;
          [contradiction|].
        destruct (Hpre g' (or_introl eq_refl)) as [_ Hr']. congruence.
    + apply frame_columns_none in Hg. split.
      * intros [= <-]. exists [], g, files. repeat split; auto; intros g' [].
      * intros [pre [f [post [E [Hpre [Hf ->]]]]]].
        destruct pre as [|g' pre]; simpl in E; injection E as -> ->;
          [reflexivity|].
        destruct (Hpre g' (or_introl eq_refl)) as [Hs _]. contradiction.
Qed.

(** When every reader returns, the loop is [read_all]. *)
Lemma read_files_all_read files :
  read_files (fun _ => true) files = Some (read_all files).
Proof.
  induction files as [|g files IH]; [reflexivity|]. simpl.
  destruct (frame_columns g); [|reflexivity].
  rewrite IH. now destruct (read_all files).
Qed.

End UploadRun.

(** X15. The load stops with "Unsupported file type" exactly when the loop
    reaches a file whose name ends with none of [.csv], [.xlsx] and [.txt]:
    every file before it has a supported name and was read by its reader.
    The name reported is that of this file; a reader that raises on an
    earlier file ends the run before the name is looked at.  When every
    reader returns, the run is [load_files]. *)
Theorem load_run_unsupported (reads : upload -> bool) (files : list upload)
    (bad : string) :
  (load_run reads files = Some (Unsupported bad) <->
   exists pre f post,
     files = (pre ++ f :: post)%list
     /\ (forall g, In g pre -> reader_of (name g) <> None /\ reads g = true)
     /\ reader_of (name f) = None /\ bad = name f)
  /\ load_run (fun _ => true) files = Some (load_files files)
  /\ load_run (fun f => negb (String.eqb (name f) "empty.csv"))
       [Upload "empty.csv" []; Upload "B.TXT" []] = None.
Proof.
  split; [|split; [|reflexivity]].
  - rewrite <- read_files_stops. unfold load_run.
    destruct files as [|f0 files]; [split; discriminate|].
    destruct (read_files reads (f0 :: files)) as [[b|frames]|].
    + split; intros [= ->]; reflexivity.
    + destruct (detect_column (concat_columns frames)); split; discriminate.
    + split; discriminate.
  - unfold load_run, load_files. destruct files as [|f0 files]; [reflexivity|].
    rewrite read_files_all_read.
    destruct (read_all (f0 :: files)) as [b|frames]; [reflexivity|].
    now destruct (detect_column (concat_columns frames)).
Qed.
